(** * Add Cluster As Release: a shallow embedding of [addrelease.py]

    The plugin adds three context-menu actions to Picard.  Each action
    collects name/value pairs in [self.form_values], renders them as hidden
    inputs of a self-submitting HTML form and opens the form in a browser.
    The cluster action also turns the [discnumber] tag of every file into the
    zero-based medium number of the release editor, with the help of the
    instance attribute [self.discnumber_shift].

    Layout of the development:
    - [Py]: the Python builtins the plugin calls ([int], [str.split],
      ["%d"], insertion-ordered [dict]);
    - [Picard]: the host objects the plugin reads (metadata, files,
      clusters, configuration);
    - the monad [M] of the plugin's effects (instance attributes, log,
      temporary files, browser, exceptions);
    - the plugin's functions, under their source names;
    - the properties. *)

From Stdlib Require Import ZArith String Ascii List Lia DecimalString Decimal.
From Stdlib Require DecimalZ DecimalPos.
From stdpp Require Import gmap strings list.

Local Open Scope Z_scope.

(** ** Python builtins *)

Module Py.

(** Text is modelled by [string], read as a sequence of ASCII characters.
    Characters outside ASCII are neither digits nor blanks here. *)

(** [Py_ISSPACE], the blanks [int] skips around an ASCII literal:
    0x09-0x0D and 0x20. *)
Definition isspace (c : ascii) : bool :=
  let n := Z.of_N (N_of_ascii c) in
  ((9 <=? n) && (n <=? 13)) || (n =? 32).

Definition isdigit (c : ascii) : bool :=
  let n := Z.of_N (N_of_ascii c) in (48 <=? n) && (n <=? 57).

Definition digit_value (c : ascii) : Z := Z.of_N (N_of_ascii c) - 48.

Fixpoint lstrip (s : list ascii) : list ascii :=
  match s with
  | c :: s' => if isspace c then lstrip s' else s
  | [] => []
  end.

Definition rstrip (s : list ascii) : list ascii := rev (lstrip (rev s)).

Definition strip (s : list ascii) : list ascii := rstrip (lstrip s).

(** The digit part of an integer literal: digits, with single underscores
    allowed between two digits.  [acc] is the value read so far and
    [prev_us] tells whether the previous character was an underscore. *)
Fixpoint digits_from (acc : Z) (prev_us : bool) (s : list ascii) : option Z :=
  match s with
  | [] => if prev_us then None else Some acc
  | c :: s' =>
      if isdigit c then digits_from (10 * acc + digit_value c) false s'
      else if Ascii.eqb c "_" then
        (if prev_us then None else digits_from acc true s')
      else None
  end.

Definition digits (s : list ascii) : option Z :=
  match s with
  | c :: s' => if isdigit c then digits_from (digit_value c) false s' else None
  | [] => None
  end.

(** [int(s)] for a [str] argument and the default base 10: surrounding
    blanks are skipped, one sign is accepted, then come the digits.  [None]
    stands for the [ValueError] that [int] raises.  The interpreter's cap
    on the number of digits of a literal is not modelled. *)
Definition int (s : string) : option Z :=
  match strip (list_ascii_of_string s) with
  | "+"%char :: ds => digits ds
  | "-"%char :: ds => Z.opp <$> digits ds
  | ds => digits ds
  end.

(** [s.split(sep, 1)[0]]: the text before the first [sep], all of [s] when
    [sep] does not occur. *)
Fixpoint split1_head (sep : ascii) (s : string) : string :=
  match s with
  | EmptyString => EmptyString
  | String c s' => if Ascii.eqb c sep then EmptyString else String c (split1_head sep s')
  end.

(** [str(n)] and ["%d" % n] for an integer [n]. *)
Definition str (n : Z) : string := NilZero.string_of_int (Z.to_int n).

(** A [dict] with text keys and values.  Iteration follows insertion order,
    so the model is an association list without repeated keys. *)
Definition dict := list (string * string).

(** [d[k] = v] *)
Fixpoint setitem (d : dict) (k v : string) : dict :=
  match d with
  | [] => [(k, v)]
  | (k', v') :: d' =>
      if String.eqb k' k then (k', v) :: d' else (k', v') :: setitem d' k v
  end.

(** [d.get(k)] *)
Fixpoint get (d : dict) (k : string) : option string :=
  match d with
  | [] => None
  | (k', v') :: d' => if String.eqb k' k then Some v' else get d' k
  end.

(** [list(d)]: the keys in iteration order. *)
Definition keys (d : dict) : list string := fst <$> d.

(** [d.clear()] leaves the empty dictionary. *)
Definition clear (d : dict) : dict := [].

End Py.

(** ** Host objects *)

Module Picard.

(** [picard.metadata.Metadata]: the tags of a file or cluster and the
    [length] attribute in milliseconds.  A multi-valued tag reads as its
    joined text, a number stored in a tag as its decimal text. *)
Record Metadata := {
  tags : gmap string string;
  length : Z
}.

(** [metadata.get(name, default)] *)
Definition get (md : Metadata) (name default : string) : string :=
  match tags md !! name with
  | Some v => v
  | None => default
  end.

(** [metadata[name]]: a tag that is not set reads as the empty text. *)
Definition getitem (md : Metadata) (name : string) : string := get md name "".

Record File := { file_metadata : Metadata }.

Record Cluster := {
  metadata : Metadata;
  files : list File
}.

(** What a context menu hands to an action: the selected items. *)
Inductive Obj :=
| OCluster (c : Cluster)
| OFile (f : File)
| OItem (label : string).

(** The classes the actions name in [objtype]. *)
Inductive Class := ClsCluster | ClsFile.

Definition isinstance (o : Obj) (cls : Class) : bool :=
  match o, cls with
  | OCluster _, ClsCluster => true
  | OFile _, ClsFile => true
  | _, _ => false
  end.

(** Truth value of an item: [Cluster] defines [__len__] as the number of its
    files, the other items are plain objects. *)
Definition truth (o : Obj) : bool :=
  match o with
  | OCluster c => negb (Nat.eqb (List.length (files c)) 0)
  | _ => true
  end.

(** [config.setting] and [picard.const.MUSICBRAINZ_SERVERS]. *)
Record Config := {
  server_host : string;
  server_port : option Z;
  MUSICBRAINZ_SERVERS : list string
}.

End Picard.

(** ** Effects *)

Inductive exn :=
| ValueError (literal : string)   (* invalid literal for int() with base 10 *)
| IndexError                      (* list index out of range *)
| AttributeError.

Inductive Result (A : Type) :=
| Ok (a : A)
| Raise (e : exn).
Arguments Ok {A} a.
Arguments Raise {A} e.

(** A call of [log.info(fmt, filename, e)]. *)
Record LogRecord := {
  log_format : string;
  log_filename : string;
  log_error : exn
}.

(** The state an action runs in.  [form_values] and [discnumber_shift] are
    the instance attributes of the registered action object; the rest is
    the outside world: configuration (read only), the log, the temporary
    files written and the addresses opened in the browser. *)
Record World := {
  form_values : Py.dict;
  discnumber_shift : Z;
  config : Picard.Config;
  log : list LogRecord;
  tempfiles : list (string * string);
  browser : list string
}.

Definition M (A : Type) : Type := World -> Result A * World.

#[global] Instance M_ret : MRet M := fun A (a : A) w => (Ok a, w).

#[global] Instance M_bind : MBind M := fun A B (k : A -> M B) (c : M A) w =>
  match c w with
  | (Ok a, w') => k a w'
  | (Raise e, w') => (Raise e, w')
  end.

Definition raise {A} (e : exn) : M A := fun w => (Raise e, w).

(** [try: body except ...: handler].  [handler e] is [None] when no
    [except] clause matches [e]. *)
Definition try_except {A} (body : M A) (handler : exn -> option (M A)) : M A :=
  fun w =>
    match body w with
    | (Ok a, w') => (Ok a, w')
    | (Raise e, w') =>
        match handler e with
        | Some h => h w'
        | None => (Raise e, w')
        end
    end.

(** [try: body finally: cleanup] *)
Definition try_finally {A} (body : M A) (cleanup : M unit) : M A :=
  fun w =>
    match body w with
    | (r, w') =>
        match cleanup w' with
        | (Ok _, w'') => (r, w'')
        | (Raise e, w'') => (Raise e, w'')
        end
    end.

(** [for i, x in enumerate(l): body], counting from [i]. *)
Fixpoint for_enumerate {A} (i : nat) (l : list A) (body : nat -> A -> M unit) : M unit :=
  match l with
  | [] => mret tt
  | x :: l' => body i x;; for_enumerate (S i) l' body
  end.

Definition lift_option {A} (o : option A) (e : exn) : M A :=
  match o with
  | Some a => mret a
  | None => raise e
  end.

(** [int(s)] as a computation. *)
Definition int (s : string) : M Z := lift_option (Py.int s) (ValueError s).

(** Attribute and channel updates. *)
Definition with_form_values (d : Py.dict) (w : World) : World :=
  {| form_values := d; discnumber_shift := discnumber_shift w;
     config := config w; log := log w;
     tempfiles := tempfiles w; browser := browser w |}.

Definition with_discnumber_shift (z : Z) (w : World) : World :=
  {| form_values := form_values w; discnumber_shift := z;
     config := config w; log := log w;
     tempfiles := tempfiles w; browser := browser w |}.

Definition with_log (l : list LogRecord) (w : World) : World :=
  {| form_values := form_values w; discnumber_shift := discnumber_shift w;
     config := config w; log := l;
     tempfiles := tempfiles w; browser := browser w |}.

Definition with_tempfiles (t : list (string * string)) (w : World) : World :=
  {| form_values := form_values w; discnumber_shift := discnumber_shift w;
     config := config w; log := log w;
     tempfiles := t; browser := browser w |}.

Definition with_browser (b : list string) (w : World) : World :=
  {| form_values := form_values w; discnumber_shift := discnumber_shift w;
     config := config w; log := log w;
     tempfiles := tempfiles w; browser := b |}.

Definition get_form_values : M Py.dict := fun w => (Ok (form_values w), w).

Definition set_form_values_attr (d : Py.dict) : M unit :=
  fun w => (Ok tt, with_form_values d w).

Definition get_discnumber_shift : M Z := fun w => (Ok (discnumber_shift w), w).

Definition set_discnumber_shift (z : Z) : M unit :=
  fun w => (Ok tt, with_discnumber_shift z w).

Definition get_config : M Picard.Config := fun w => (Ok (config w), w).

(** [log.info(fmt, filename, e)] *)
Definition log_info (fmt filename : string) (e : exn) : M unit :=
  fun w => (Ok tt, with_log (log w ++ [{| log_format := fmt;
                                          log_filename := filename;
                                          log_error := e |}]) w).

(** [tempfile.mkstemp(suffix)] followed by writing [content] through the
    descriptor: a new file under a name not used before. *)
Definition write_tempfile (suffix content : string) : M string :=
  fun w =>
    let fp := "/tmp/tmp" +:+ Py.str (Z.of_nat (List.length (tempfiles w))) +:+ suffix in
    (Ok fp, with_tempfiles (tempfiles w ++ [(fp, content)]) w).

(** [webbrowser2.open(url)] *)
Definition webbrowser2_open (url : string) : M unit :=
  fun w => (Ok tt, with_browser (browser w ++ [url]) w).

(** ** The plugin *)

Definition nl : string := String "010"%char EmptyString.
Definition dq : string := String "034"%char EmptyString.

(** [HTML_HEAD % (title, action)] *)
Definition HTML_HEAD (title action : string) : string :=
  "<!doctype html>" +:+ nl +:+
  "<meta charset=" +:+ dq +:+ "UTF-8" +:+ dq +:+ ">" +:+ nl +:+
  "<title>" +:+ title +:+ "</title>" +:+ nl +:+
  "<form action=" +:+ dq +:+ action +:+ dq +:+ " method=" +:+ dq +:+ "post" +:+ dq +:+ ">" +:+ nl.

(** [HTML_INPUT % (name, value)] *)
Definition HTML_INPUT (name value : string) : string :=
  "<input type=" +:+ dq +:+ "hidden" +:+ dq +:+ " name=" +:+ dq +:+ name +:+ dq +:+
  " value=" +:+ dq +:+ value +:+ dq +:+ ">" +:+ nl.

(** [HTML_TAIL % (label)] *)
Definition HTML_TAIL (label : string) : string :=
  "<input type=" +:+ dq +:+ "submit" +:+ dq +:+ " value=" +:+ dq +:+ label +:+ dq +:+ ">" +:+ nl +:+
  "</form>" +:+ nl +:+
  "<script>document.forms[0].submit()</script>" +:+ nl.

(** [HTML_ATTR_ESCAPE.get(c, c)] *)
Definition HTML_ATTR_ESCAPE (c : ascii) : string :=
  if Ascii.eqb c "&" then "&amp;"
  else if Ascii.eqb c "034" then "&quot;"
  else String c EmptyString.

Definition mbserver_url (path : string) : M string :=
  cfg ← get_config;
  let host := Picard.server_host cfg in
  let port := Picard.server_port cfg in
  if bool_decide (host ∈ Picard.MUSICBRAINZ_SERVERS cfg) || bool_decide (port = Some 443) then
    mret ("https://" +:+ host +:+ path)
  else
    match port with
    | None => mret ("http://" +:+ host +:+ path)
    | Some p =>
        if p =? 80 then mret ("http://" +:+ host +:+ path)
        else mret ("http://" +:+ host +:+ ":" +:+ Py.str p +:+ path)
    end.

(** What [check_object] returns: [False] or the selected object. *)
Inductive Checked :=
| CFalse
| CObj (o : Picard.Obj).

(** [if objdata:] *)
Definition Checked_truth (r : Checked) : bool :=
  match r with
  | CFalse => false
  | CObj o => Picard.truth o
  end.

(** [objs[0]] *)
Definition first_item (objs : list Picard.Obj) : M Picard.Obj :=
  lift_option (head objs) IndexError.

Definition check_object (objs : list Picard.Obj) (objtype : Picard.Class) : M Checked :=
  o ← first_item objs;
  if negb (Picard.isinstance o objtype) || negb (Nat.eqb (List.length objs) 1) then
    mret CFalse
  else
    o' ← first_item objs;
    mret (CObj o').

Definition add_form_value (key value : string) : M unit :=
  d ← get_form_values;
  set_form_values_attr (Py.setitem d key value).

(** [esc] of [generate_html_file] *)
Fixpoint esc (s : string) : string :=
  match s with
  | EmptyString => EmptyString
  | String c s' => HTML_ATTR_ESCAPE c +:+ esc s'
  end.

(** The hidden inputs written by the loop of [generate_html_file]. *)
Fixpoint html_inputs (d : Py.dict) : string :=
  match d with
  | [] => EmptyString
  | (key, value) :: d' => HTML_INPUT (esc key) (esc value) +:+ html_inputs d'
  end.

Definition generate_html_file (NAME submit_path : string) (form_values : Py.dict) : M string :=
  url ← mbserver_url submit_path;
  write_tempfile ".html" (HTML_HEAD NAME url +:+ html_inputs form_values +:+ HTML_TAIL NAME).

Definition open_html_file (fp : string) : M unit :=
  webbrowser2_open ("file://" +:+ fp).

(** *** AddClusterAsRelease *)

Definition discnumber_log_format : string :=
  "Trying to get the disc number of %s caused the following error: %s; assuming 0".

Definition extract_discnumber (metadata : Picard.Metadata) : M Z :=
  try_except
    (let discnumber := Picard.get metadata "discnumber" "1" in
     let discnumber := Py.split1_head "/" discnumber in
     m ← int discnumber;
     (if m <=? 0 then
        shift ← get_discnumber_shift;
        set_discnumber_shift (Z.max shift (0 - m))
      else mret tt);;
     shift ← get_discnumber_shift;
     mret (m + shift))
    (fun e =>
       match e with
       | ValueError _ =>
           Some (log_info discnumber_log_format
                          (Picard.getitem metadata "~filename") e;;
                 mret 0)
       | _ => None
       end).

(** ["mediums.%d.track.%d.%s" % (m, i, n)] *)
Definition track_field (m i : Z) (n : string) : string :=
  "mediums." +:+ Py.str m +:+ ".track." +:+ Py.str i +:+ "." +:+ n.

(** The [try] at the head of the loop body: the track number of the tags
    when it reads as an integer, else the position from [enumerate]. *)
Definition track_index (i : nat) (file : Picard.File) : M Z :=
  try_except
    (n ← int (Picard.getitem (Picard.file_metadata file) "tracknumber");
     mret (n - 1))
    (fun _ => Some (mret (Z.of_nat i))).

(** One round of the loop of [set_form_values]. *)
Definition set_track_values (cluster : Picard.Cluster) (i : nat) (file : Picard.File) : M unit :=
  i ← track_index i file;
  m ← extract_discnumber (Picard.file_metadata file);
  let tnv n v := add_form_value (track_field m i n) v in
  tnv "name" (Picard.getitem (Picard.file_metadata file) "title");;
  (if bool_decide (Picard.getitem (Picard.file_metadata file) "artist"
                   ≠ Picard.getitem (Picard.metadata cluster) "albumartist")
   then tnv "artist_credit.names.0.name" (Picard.getitem (Picard.file_metadata file) "artist")
   else mret tt);;
  tnv "length" (Py.str (Picard.length (Picard.file_metadata file))).

Definition set_form_values (cluster : Picard.Cluster) : M unit :=
  let nv := add_form_value in
  nv "artist_credit.names.0.artist.name" (Picard.getitem (Picard.metadata cluster) "albumartist");;
  nv "name" (Picard.getitem (Picard.metadata cluster) "album");;
  for_enumerate 0 (Picard.files cluster) (set_track_values cluster).

(** [AddObjectAsEntity.callback] for the cluster action: [objtype] is
    [Cluster], [submit_path] is ['/release/add'].  An object that passed
    [check_object] is a cluster; the other branch is what reading
    [cluster.metadata] on anything else would do. *)
Definition NAME : string := "Add Cluster As Release...".
Definition objtype : Picard.Class := Picard.ClsCluster.
Definition submit_path : string := "/release/add".

Definition callback (objs : list Picard.Obj) : M unit :=
  objdata ← check_object objs objtype;
  try_finally
    (if Checked_truth objdata then
       match objdata with
       | CObj (Picard.OCluster cluster) =>
           set_form_values cluster;;
           fv ← get_form_values;
           html_file ← generate_html_file NAME submit_path fv;
           open_html_file html_file
       | _ => raise AttributeError
       end
     else mret tt)
    (fv ← get_form_values;
     set_form_values_attr (Py.clear fv)).

(** [AddClusterAsRelease()]: what [__init__] leaves in the new object.  The
    module creates one object when it is loaded and registers it; every use
    of the menu entry calls [callback] on that object. *)
Definition new_AddClusterAsRelease (cfg : Picard.Config) : World :=
  {| form_values := [];
     discnumber_shift := -1;
     config := cfg;
     log := [];
     tempfiles := [];
     browser := [] |}.

(** *** The file actions *)

(** Truth value of a text: the empty text is false. *)
Definition str_truth (s : string) : bool :=
  match s with
  | EmptyString => false
  | String _ _ => true
  end.

(** [obj.metadata]: clusters and files carry tags, other items raise
    [AttributeError]. *)
Definition metadata_of (o : Picard.Obj) : M Picard.Metadata :=
  match o with
  | Picard.OCluster c => mret (Picard.metadata c)
  | Picard.OFile f => mret (Picard.file_metadata f)
  | Picard.OItem _ => raise AttributeError
  end.

Module AddFileAsRecording.

Definition NAME : string := "Add File As Standalone Recording...".
Definition objtype : Picard.Class := Picard.ClsFile.
Definition submit_path : string := "/recording/create".

Definition set_form_values (track : Picard.Obj) : M unit :=
  let nv := add_form_value in
  metadata ← metadata_of track;
  nv "edit-recording.name" (Picard.getitem metadata "title");;
  nv "edit-recording.artist_credit.names.0.artist.name" (Picard.getitem metadata "artist");;
  nv "edit-recording.length" (Picard.getitem metadata "~length").

End AddFileAsRecording.

Module AddFileAsRelease.

Definition NAME : string := "Add File As Release...".
Definition objtype : Picard.Class := Picard.ClsFile.
Definition submit_path : string := "/release/add".

Definition set_form_values (track : Picard.Obj) : M unit :=
  let nv := add_form_value in
  metadata ← metadata_of track;
  (if str_truth (Picard.getitem metadata "albumartist")
   then nv "artist_credit.names.0.artist.name" (Picard.getitem metadata "albumartist")
   else nv "artist_credit.names.0.artist.name" (Picard.getitem metadata "artist"));;
  (if str_truth (Picard.getitem metadata "album")
   then nv "name" (Picard.getitem metadata "album")
   else nv "name" (Picard.getitem metadata "title"));;
  nv "mediums.0.track.0.name" (Picard.getitem metadata "title");;
  nv "mediums.0.track.0.artist_credit.names.0.name" (Picard.getitem metadata "artist");;
  nv "mediums.0.track.0.length" (Py.str (Picard.length metadata)).

End AddFileAsRelease.

(** *** AddObjectAsEntity *)

Module AddObjectAsEntity.

(** What a subclass fixes: the class attributes and [set_form_values]. *)
Record Subclass := {
  NAME : string;
  objtype : Picard.Class;
  submit_path : string;
  set_form_values : Picard.Obj -> M unit
}.

Definition callback (self : Subclass) (objs : list Picard.Obj) : M unit :=
  objdata ← check_object objs (objtype self);
  try_finally
    (if Checked_truth objdata then
       match objdata with
       | CObj o =>
           set_form_values self o;;
           fv ← get_form_values;
           html_file ← generate_html_file (NAME self) (submit_path self) fv;
           open_html_file html_file
       | CFalse => mret tt
       end
     else mret tt)
    (fv ← get_form_values;
     set_form_values_attr (Py.clear fv)).

End AddObjectAsEntity.

(** The three subclasses whose objects the module registers. *)
Definition AddClusterAsRelease_class : AddObjectAsEntity.Subclass :=
  {| AddObjectAsEntity.NAME := NAME;
     AddObjectAsEntity.objtype := objtype;
     AddObjectAsEntity.submit_path := submit_path;
     AddObjectAsEntity.set_form_values :=
       fun o => match o with
                | Picard.OCluster cluster => set_form_values cluster
                | _ => raise AttributeError
                end |}.

Definition AddFileAsRecording_class : AddObjectAsEntity.Subclass :=
  {| AddObjectAsEntity.NAME := AddFileAsRecording.NAME;
     AddObjectAsEntity.objtype := AddFileAsRecording.objtype;
     AddObjectAsEntity.submit_path := AddFileAsRecording.submit_path;
     AddObjectAsEntity.set_form_values := AddFileAsRecording.set_form_values |}.

Definition AddFileAsRelease_class : AddObjectAsEntity.Subclass :=
  {| AddObjectAsEntity.NAME := AddFileAsRelease.NAME;
     AddObjectAsEntity.objtype := AddFileAsRelease.objtype;
     AddObjectAsEntity.submit_path := AddFileAsRelease.submit_path;
     AddObjectAsEntity.set_form_values := AddFileAsRelease.set_form_values |}.

(** ** Vocabulary of the properties *)

(** The text [extract_discnumber] hands to [int]. *)
Definition discnumber_text (metadata : Picard.Metadata) : string :=
  Py.split1_head "/" (Picard.get metadata "discnumber" "1").

(** [extract_discnumber] called on one tag set after the other, on the same
    object. *)
Fixpoint extract_discnumbers (l : list Picard.Metadata) : M (list Z) :=
  match l with
  | [] => mret []
  | metadata :: l' =>
      m ← extract_discnumber metadata;
      ms ← extract_discnumbers l';
      mret (m :: ms)
  end.

(** The shift one call leaves, as the comment in the source describes it. *)
Definition shift_after (shift : Z) (metadata : Picard.Metadata) : Z :=
  match Py.int (discnumber_text metadata) with
  | Some m => if m <=? 0 then Z.max shift (0 - m) else shift
  | None => shift
  end.

(** Tag sets for examples. *)
Definition tagged (l : list (string * string)) (len : Z) : Picard.Metadata :=
  {| Picard.tags := list_to_map l; Picard.length := len |}.

Definition example_config : Picard.Config :=
  {| Picard.server_host := "musicbrainz.org";
     Picard.server_port := Some 443;
     Picard.MUSICBRAINZ_SERVERS := ["musicbrainz.org"; "beta.musicbrainz.org"] |}.

(** The number [extract_discnumber] returns when the shift is [shift]. *)
Definition medium_number (shift : Z) (metadata : Picard.Metadata) : Z :=
  match Py.int (discnumber_text metadata) with
  | Some m => m + shift_after shift metadata
  | None => 0
  end.

(** The track index of the file that [enumerate] numbers [i]. *)
Definition track_number (i : nat) (file : Picard.File) : Z :=
  match Py.int (Picard.getitem (Picard.file_metadata file) "tracknumber") with
  | Some n => n - 1
  | None => Z.of_nat i
  end.

(** A run of [d[k] = v] statements. *)
Definition setitems (d : Py.dict) (l : list (string * string)) : Py.dict :=
  fold_left (fun d kv => Py.setitem d kv.1 kv.2) l d.

(** The name/value pairs one round of the loop passes to [nv], in the order
    of the calls, for medium [m] and track index [i]. *)
Definition track_items (cluster : Picard.Cluster) (m i : Z) (file : Picard.File)
  : list (string * string) :=
  [(track_field m i "name", Picard.getitem (Picard.file_metadata file) "title")]
  ++ (if bool_decide (Picard.getitem (Picard.file_metadata file) "artist"
                      ≠ Picard.getitem (Picard.metadata cluster) "albumartist")
      then [(track_field m i "artist_credit.names.0.name",
             Picard.getitem (Picard.file_metadata file) "artist")]
      else [])
  ++ [(track_field m i "length", Py.str (Picard.length (Picard.file_metadata file)))].

(** The pairs passed to [nv] before the loop. *)
Definition release_items (cluster : Picard.Cluster) : list (string * string) :=
  [("artist_credit.names.0.artist.name", Picard.getitem (Picard.metadata cluster) "albumartist");
   ("name", Picard.getitem (Picard.metadata cluster) "album")].

(** The pairs the loop passes to [nv] for the files [l], numbered from [i],
    when it starts with the shift [shift]. *)
Fixpoint track_writes (cluster : Picard.Cluster) (i : nat) (l : list Picard.File) (shift : Z)
  : list (string * string) :=
  match l with
  | [] => []
  | file :: l' =>
      track_items cluster (medium_number shift (Picard.file_metadata file))
                  (track_number i file) file
      ++ track_writes cluster (S i) l' (shift_after shift (Picard.file_metadata file))
  end.

(** Every pair [set_form_values] passes to [nv], in the order of the calls. *)
Definition form_writes (cluster : Picard.Cluster) (shift : Z) : list (string * string) :=
  release_items cluster ++ track_writes cluster 0 (Picard.files cluster) shift.

(** The keys of a run of writes, each at the place of its first write. *)
Fixpoint first_occurrences (l : list string) : list string :=
  match l with
  | [] => []
  | k :: l' => k :: filter (fun k' => k' ≠ k) (first_occurrences l')
  end.

(** The value of the last write to [k] in a run of writes. *)
Fixpoint last_write (l : list (string * string)) (k : string) : option string :=
  match l with
  | [] => None
  | (k', v) :: l' =>
      match last_write l' k with
      | Some v' => Some v'
      | None => if String.eqb k' k then Some v else None
      end
  end.

(** The cluster cut down to its first [p] files. *)
Definition first_files (p : nat) (cluster : Picard.Cluster) : Picard.Cluster :=
  {| Picard.metadata := Picard.metadata cluster;
     Picard.files := take p (Picard.files cluster) |}.

(** A cluster of two files: the first is tagged with disc 1, the second
    with disc -1. *)
Definition example_cluster : Picard.Cluster :=
  {| Picard.metadata := tagged [("albumartist", "A"); ("album", "Alb")] 0;
     Picard.files :=
       [ {| Picard.file_metadata :=
              tagged [("discnumber", "1"); ("tracknumber", "1"); ("title", "One");
                      ("artist", "A")] 1000 |};
         {| Picard.file_metadata :=
              tagged [("discnumber", "-1"); ("tracknumber", "x"); ("title", "Two");
                      ("artist", "B")] 2000 |} ] |}.

(** The numbers a run of [extract_discnumber] calls returns when it starts
    with the shift [shift]. *)
Fixpoint medium_numbers (l : list Picard.Metadata) (shift : Z) : list Z :=
  match l with
  | [] => []
  | metadata :: l' =>
      medium_number shift metadata :: medium_numbers l' (shift_after shift metadata)
  end.

(** The log record [extract_discnumber] writes for tags whose disc number
    is no integer. *)
Definition discnumber_failure (metadata : Picard.Metadata) : LogRecord :=
  {| log_format := discnumber_log_format;
     log_filename := Picard.getitem metadata "~filename";
     log_error := ValueError (discnumber_text metadata) |}.

(** The records a run over [l] writes: one for each tag set whose disc
    number is no integer, in the order of [l]. *)
Fixpoint discnumber_failures (l : list Picard.Metadata) : list LogRecord :=
  match l with
  | [] => []
  | metadata :: l' =>
      match Py.int (discnumber_text metadata) with
      | Some _ => discnumber_failures l'
      | None => discnumber_failure metadata :: discnumber_failures l'
      end
  end.

(** The page [generate_html_file] writes for the form values [d]. *)
Definition html_page (name url : string) (d : Py.dict) : string :=
  HTML_HEAD name url +:+ html_inputs d +:+ HTML_TAIL name.

(** The cluster that holds one file and carries the file's album tags. *)
Definition cluster_of_file (file : Picard.File) : Picard.Cluster :=
  {| Picard.metadata := Picard.file_metadata file;
     Picard.files := [file] |}.

(** ** Properties *)

(** *** The model on examples *)

Example int_examples :
  Py.int "1" = Some 1 /\ Py.int "-2" = Some (-2) /\ Py.int " +1_0 " = Some 10 /\
  Py.int "007" = Some 7 /\ Py.int "boop" = None /\ Py.int EmptyString = None /\
  Py.int "1__0" = None /\ Py.int "_1" = None /\ Py.int "1_" = None /\
  Py.int "- 1" = None /\ Py.int "1/4" = None /\ Py.int "+" = None.
Proof. repeat split; reflexivity. Qed.

(** The separators 0x1C-0x1F are no blanks for [int]. *)
Example int_separator_example :
  Py.int (String "031"%char "5") = None /\ Py.int (String "009"%char "5") = Some 5.
Proof. split; reflexivity. Qed.

Example split1_head_examples :
  Py.split1_head "/" "2/2" = "2"%string /\ Py.split1_head "/" "-1/4/x" = "-1"%string /\
  Py.split1_head "/" "boop" = "boop"%string /\ Py.split1_head "/" "/3" = EmptyString.
Proof. repeat split; reflexivity. Qed.

Example str_examples :
  Py.str 0 = "0"%string /\ Py.str (-1) = "-1"%string /\ Py.str 305 = "305"%string.
Proof. repeat split; reflexivity. Qed.

Example setitem_examples :
  Py.setitem [("a", "1"); ("b", "2")] "a" "3" = [("a", "3"); ("b", "2")] /\
  Py.setitem [("a", "1"); ("b", "2")] "c" "3" = [("a", "1"); ("b", "2"); ("c", "3")].
Proof. split; reflexivity. Qed.

(** The doctest of [extract_discnumber]: seven calls, each on a new
    object, then three calls on one object. *)
Example extract_discnumber_doctest :
  let fresh := new_AddClusterAsRelease example_config in
  (extract_discnumber (tagged [] 0) fresh).1 = Ok 0 /\
  (extract_discnumber (tagged [("discnumber", "boop")] 0) fresh).1 = Ok 0 /\
  (extract_discnumber (tagged [("discnumber", "1")] 0) fresh).1 = Ok 0 /\
  (extract_discnumber (tagged [("discnumber", Py.str 1)] 0) fresh).1 = Ok 0 /\
  (extract_discnumber (tagged [("discnumber", Py.str (-1))] 0) fresh).1 = Ok 0 /\
  (extract_discnumber (tagged [("discnumber", "1/1")] 0) fresh).1 = Ok 0 /\
  (extract_discnumber (tagged [("discnumber", "2/2")] 0) fresh).1 = Ok 1 /\
  (extract_discnumbers [tagged [("discnumber", "-2/2")] 0;
                        tagged [("discnumber", "-1/4")] 0;
                        tagged [("discnumber", "1/4")] 0] fresh).1 = Ok [0; 1; 3].
Proof. cbv zeta. repeat split; vm_compute; reflexivity. Qed.

Example first_occurrences_example :
  first_occurrences ["a"; "b"; "a"; "c"; "b"] = ["a"; "b"; "c"] /\
  last_write [("a", "1"); ("b", "2"); ("a", "3")] "a" = Some "3"%string /\
  setitems [] [("a", "1"); ("b", "2"); ("a", "3")] = [("a", "3"); ("b", "2")].
Proof. repeat split; reflexivity. Qed.

Example mbserver_url_examples :
  (mbserver_url "/release/add" (new_AddClusterAsRelease example_config)).1
    = Ok "https://musicbrainz.org/release/add"%string /\
  (mbserver_url "/release/add"
     (new_AddClusterAsRelease {| Picard.server_host := "localhost";
                                 Picard.server_port := Some 5000;
                                 Picard.MUSICBRAINZ_SERVERS := ["musicbrainz.org"] |})).1
    = Ok "http://localhost:5000/release/add"%string /\
  (mbserver_url "/release/add"
     (new_AddClusterAsRelease {| Picard.server_host := "localhost";
                                 Picard.server_port := None;
                                 Picard.MUSICBRAINZ_SERVERS := ["musicbrainz.org"] |})).1
    = Ok "http://localhost/release/add"%string.
Proof. repeat split; vm_compute; reflexivity. Qed.

Example esc_example :
  esc ("a&b" +:+ dq) = "a&amp;b&quot;"%string.
Proof. reflexivity. Qed.

(** *** Running the monad *)

Lemma bind_run {A B} (c : M A) (k : A -> M B) (w : World) :
  (c ≫= k) w =
  match c w with
  | (Ok a, w') => k a w'
  | (Raise e, w') => (Raise e, w')
  end.
Proof. reflexivity. Qed.

(** Unfold the monad's operations and compute. *)
Ltac run_monad := unfold mbind, M_bind, mret, M_ret, raise; cbn.

Lemma with_discnumber_shift_id (w : World) :
  with_discnumber_shift (discnumber_shift w) w = w.
Proof. by destruct w. Qed.

(** *** [extract_discnumber] *)

(** One equation for the whole function: a parsed number [m] comes back as
    [m] plus the shift the call leaves; a text that is no number comes back
    as 0 with one more log record and nothing else changed. *)
Lemma extract_discnumber_run (metadata : Picard.Metadata) (w : World) :
  extract_discnumber metadata w =
  match Py.int (discnumber_text metadata) with
  | Some m =>
      (Ok (m + shift_after (discnumber_shift w) metadata),
       with_discnumber_shift (shift_after (discnumber_shift w) metadata) w)
  | None =>
      (Ok 0,
       with_log (log w ++ [{| log_format := discnumber_log_format;
                              log_filename := Picard.getitem metadata "~filename";
                              log_error := ValueError (discnumber_text metadata) |}]) w)
  end.
Proof.
  unfold extract_discnumber, try_except, shift_after, int, lift_option.
  fold (discnumber_text metadata).
  rewrite bind_run.
  destruct (Py.int (discnumber_text metadata)) as [m|]; [|reflexivity].
  cbn. destruct (m <=? 0); cbn; [reflexivity|].
  by rewrite with_discnumber_shift_id.
Qed.

Lemma extract_discnumber_parsed (metadata : Picard.Metadata) (w : World) (m : Z) :
  Py.int (discnumber_text metadata) = Some m ->
  extract_discnumber metadata w =
    (Ok (m + (if m <=? 0 then Z.max (discnumber_shift w) (0 - m) else discnumber_shift w)),
     with_discnumber_shift
       (if m <=? 0 then Z.max (discnumber_shift w) (0 - m) else discnumber_shift w) w).
Proof.
  intros Hm. rewrite extract_discnumber_run. unfold shift_after. by rewrite Hm.
Qed.

Lemma shift_after_ge (shift : Z) (metadata : Picard.Metadata) :
  shift <= shift_after shift metadata.
Proof.
  unfold shift_after. destruct (Py.int _) as [m|]; [|lia].
  destruct (m <=? 0); lia.
Qed.

Lemma extract_discnumber_shift (metadata : Picard.Metadata) (w : World) :
  discnumber_shift (extract_discnumber metadata w).2
  = shift_after (discnumber_shift w) metadata.
Proof.
  rewrite extract_discnumber_run. unfold shift_after.
  by destruct (Py.int _).
Qed.

Lemma extract_discnumber_ok (metadata : Picard.Metadata) (w : World) :
  exists m, (extract_discnumber metadata w).1 = Ok m.
Proof. rewrite extract_discnumber_run. destruct (Py.int _); eauto. Qed.

Lemma extract_discnumber_nonneg (metadata : Picard.Metadata) (w : World) (m : Z) :
  -1 <= discnumber_shift w ->
  (extract_discnumber metadata w).1 = Ok m ->
  0 <= m.
Proof.
  rewrite extract_discnumber_run. unfold shift_after.
  destruct (Py.int _) as [n|]; cbn; [|intros _ [= <-]; lia].
  destruct (Z.leb_spec n 0); intros Hs [= <-]; lia.
Qed.

Lemma extract_discnumbers_shift (l : list Picard.Metadata) (w : World) :
  discnumber_shift (extract_discnumbers l w).2
  = fold_left shift_after l (discnumber_shift w).
Proof.
  revert w. induction l as [|metadata l IH]; intros w; [reflexivity|].
  cbn [extract_discnumbers fold_left]. rewrite bind_run.
  pose proof (extract_discnumber_shift metadata w) as Hs.
  destruct (extract_discnumber_ok metadata w) as [m Hm].
  destruct (extract_discnumber metadata w) as [r w1]; cbn in Hs, Hm; subst r.
  rewrite bind_run. rewrite <- Hs, <- IH.
  by destruct (extract_discnumbers l w1) as [[ms|e] w2].
Qed.

Lemma fold_shift_after_ge (l : list Picard.Metadata) (shift : Z) :
  shift <= fold_left shift_after l shift.
Proof.
  revert shift. induction l as [|metadata l IH]; intros shift; cbn; [lia|].
  pose proof (shift_after_ge shift metadata). specialize (IH (shift_after shift metadata)). lia.
Qed.

Lemma nonneg_from_shift_ge (l : list Picard.Metadata) (w : World) :
  -1 <= discnumber_shift w ->
  exists ms w',
    extract_discnumbers l w = (Ok ms, w') /\
    List.length ms = List.length l /\
    Forall (fun m => 0 <= m) ms.
Proof.
  revert w. induction l as [|metadata l IH]; intros w Hw.
  - exists [], w. by repeat split.
  - cbn [extract_discnumbers]. rewrite bind_run.
    pose proof (extract_discnumber_shift metadata w) as Hs.
    pose proof (extract_discnumber_nonneg metadata w) as Hn.
    destruct (extract_discnumber_ok metadata w) as [m Hm].
    destruct (extract_discnumber metadata w) as [r w1]; cbn in Hs, Hm, Hn; subst r.
    destruct (IH w1) as (ms & w2 & Hrun & Hlen & Hall).
    { rewrite Hs. pose proof (shift_after_ge (discnumber_shift w) metadata). lia. }
    exists (m :: ms), w2. rewrite bind_run, Hrun. repeat split.
    + cbn. by rewrite Hlen.
    + constructor; [by apply Hn|done].
Qed.

(** C3: on an object that starts with the shift of [__init__], every call
    of a run of [extract_discnumber] calls returns (no exception leaves
    it), and every number returned is at least 0, whatever the tags are:
    numbers at most 0, numbers above 0, or text that is no number. *)
Theorem extract_discnumbers_nonneg (l : list Picard.Metadata) (w : World) :
  discnumber_shift w = -1 ->
  exists ms w',
    extract_discnumbers l w = (Ok ms, w') /\
    List.length ms = List.length l /\
    Forall (fun m => 0 <= m) ms.
Proof. intros Hw. apply nonneg_from_shift_ge. lia. Qed.

Lemma extract_discnumbers_nonneg_witness :
  discnumber_shift (new_AddClusterAsRelease example_config) = -1 /\
  exists ms w',
    extract_discnumbers
      [tagged [("discnumber", "3")] 0; tagged [("discnumber", "-2/2")] 0;
       tagged [("discnumber", "boop")] 0; tagged [] 0]
      (new_AddClusterAsRelease example_config) = (Ok ms, w') /\
    List.length ms = 4%nat /\
    Forall (fun m => 0 <= m) ms.
Proof.
  split; [reflexivity|].
  apply (extract_discnumbers_nonneg
           [tagged [("discnumber", "3")] 0; tagged [("discnumber", "-2/2")] 0;
            tagged [("discnumber", "boop")] 0; tagged [] 0]
           (new_AddClusterAsRelease example_config)).
  reflexivity.
Defined.

(** C4: when the text left of the first slash is no base-10 integer,
    [extract_discnumber] returns 0 (it raises nothing), and the only change
    it makes is one more log record, which carries the file name of the
    tags and the [ValueError]; the shift in particular stays as it was. *)
Theorem extract_discnumber_parse_failure (metadata : Picard.Metadata) (w : World) :
  Py.int (Py.split1_head "/" (Picard.get metadata "discnumber" "1")) = None ->
  extract_discnumber metadata w =
    (Ok 0,
     with_log (log w ++ [{| log_format := discnumber_log_format;
                            log_filename := Picard.getitem metadata "~filename";
                            log_error :=
                              ValueError (Py.split1_head "/" (Picard.get metadata "discnumber" "1")) |}]) w)
  /\ discnumber_shift (extract_discnumber metadata w).2 = discnumber_shift w
  /\ form_values (extract_discnumber metadata w).2 = form_values w
  /\ List.length (log (extract_discnumber metadata w).2) = S (List.length (log w)).
Proof.
  intros Hint. rewrite extract_discnumber_run. unfold discnumber_text. rewrite Hint.
  cbn. repeat split. rewrite length_app. cbn. lia.
Qed.

Lemma extract_discnumber_parse_failure_witness :
  extract_discnumber (tagged [("discnumber", "boop"); ("~filename", "/music/a.flac")] 0)
                     (new_AddClusterAsRelease example_config) =
    (Ok 0,
     with_log [{| log_format := discnumber_log_format;
                  log_filename := "/music/a.flac";
                  log_error := ValueError "boop" |}]
              (new_AddClusterAsRelease example_config)).
Proof.
  exact (proj1 (extract_discnumber_parse_failure
           (tagged [("discnumber", "boop"); ("~filename", "/music/a.flac")] 0)
           (new_AddClusterAsRelease example_config) eq_refl)).
Defined.

(** *** The other methods leave the shift alone *)

Lemma check_object_run (objs : list Picard.Obj) (cls : Picard.Class) (w : World) :
  check_object objs cls w =
  match objs with
  | [] => (Raise IndexError, w)
  | o :: objs' =>
      (Ok (if Picard.isinstance o cls && bool_decide (objs' = []) then CObj o else CFalse), w)
  end.
Proof.
  destruct objs as [|o objs']; [reflexivity|].
  unfold check_object, first_item. run_monad.
  destruct (Picard.isinstance o cls); cbn; [|reflexivity].
  by destruct objs'.
Qed.

Lemma add_form_value_run (key value : string) (w : World) :
  add_form_value key value w
  = (Ok tt, with_form_values (Py.setitem (form_values w) key value) w).
Proof. reflexivity. Qed.

Lemma track_index_run (i : nat) (file : Picard.File) (w : World) :
  track_index i file w =
  (Ok match Py.int (Picard.getitem (Picard.file_metadata file) "tracknumber") with
      | Some n => n - 1
      | None => Z.of_nat i
      end, w).
Proof.
  unfold track_index, try_except, int, lift_option. rewrite bind_run.
  by destruct (Py.int _).
Qed.

Lemma mbserver_url_world (path : string) (w : World) :
  exists url, mbserver_url path w = (Ok url, w).
Proof.
  unfold mbserver_url. rewrite bind_run. cbn.
  destruct (_ || _); [by eexists|].
  destruct (Picard.server_port (config w)) as [p|]; [|by eexists].
  destruct (p =? 80); by eexists.
Qed.

Lemma generate_html_file_shift (name path : string) (d : Py.dict) (w : World) :
  discnumber_shift (generate_html_file name path d w).2 = discnumber_shift w.
Proof.
  unfold generate_html_file. rewrite bind_run.
  destruct (mbserver_url_world path w) as [url ->]. reflexivity.
Qed.

(** C6: on an object that starts with the shift of [__init__], tags
    without a disc number give 0, ["1"] gives 0, ["2"] gives 1 and ["2/2"]
    gives 1; and whatever stands after the first slash plays no part: two
    tag sets whose disc numbers agree up to the first slash give the same
    number and leave the same shift, from any state. *)
Theorem extract_discnumber_fresh :
  (forall metadata w,
     discnumber_shift w = -1 ->
     (Picard.tags metadata !! "discnumber" = None -> (extract_discnumber metadata w).1 = Ok 0) /\
     (Picard.tags metadata !! "discnumber" = Some "1" -> (extract_discnumber metadata w).1 = Ok 0) /\
     (Picard.tags metadata !! "discnumber" = Some "2" -> (extract_discnumber metadata w).1 = Ok 1) /\
     (Picard.tags metadata !! "discnumber" = Some "2/2" -> (extract_discnumber metadata w).1 = Ok 1)) /\
  (forall metadata metadata' w,
     Py.split1_head "/" (Picard.get metadata "discnumber" "1")
       = Py.split1_head "/" (Picard.get metadata' "discnumber" "1") ->
     (extract_discnumber metadata w).1 = (extract_discnumber metadata' w).1 /\
     discnumber_shift (extract_discnumber metadata w).2
       = discnumber_shift (extract_discnumber metadata' w).2) /\
  (forall (a t : string),
     Py.split1_head "/" (a +:+ "/" +:+ t) = Py.split1_head "/" a).
Proof.
  split; [|split].
  - intros metadata w Hw.
    repeat split; intros Htag; rewrite extract_discnumber_run;
      unfold shift_after, discnumber_text, Picard.get; rewrite Htag, Hw; reflexivity.
  - intros metadata metadata' w Heq.
    rewrite !extract_discnumber_run. unfold shift_after, discnumber_text.
    rewrite Heq. by destruct (Py.int _).
  - intros a t. induction a as [|c a IH]; [reflexivity|].
    simpl. destruct (Ascii.eqb c "/"); [reflexivity|]. by rewrite IH.
Qed.

Lemma extract_discnumber_fresh_witness :
  (extract_discnumber (tagged [("title", "t")] 0) (new_AddClusterAsRelease example_config)).1 = Ok 0 /\
  (extract_discnumber (tagged [("discnumber", "1")] 0) (new_AddClusterAsRelease example_config)).1 = Ok 0 /\
  (extract_discnumber (tagged [("discnumber", "2")] 0) (new_AddClusterAsRelease example_config)).1 = Ok 1 /\
  (extract_discnumber (tagged [("discnumber", "2/2")] 0) (new_AddClusterAsRelease example_config)).1 = Ok 1.
Proof.
  pose proof (proj1 extract_discnumber_fresh) as H.
  split; [|split; [|split]].
  - by apply (proj1 (H (tagged [("title", "t")] 0)
                       (new_AddClusterAsRelease example_config) eq_refl)).
  - by apply (proj1 (proj2 (H (tagged [("discnumber", "1")] 0)
                              (new_AddClusterAsRelease example_config) eq_refl))).
  - by apply (proj1 (proj2 (proj2 (H (tagged [("discnumber", "2")] 0)
                                     (new_AddClusterAsRelease example_config) eq_refl)))).
  - by apply (proj2 (proj2 (proj2 (H (tagged [("discnumber", "2/2")] 0)
                                     (new_AddClusterAsRelease example_config) eq_refl)))).
Defined.

(** C2, as the claim words it, fails: on a new object the call on ["-1/4"]
    raises the shift to 1, not 2, and the call on ["1/4"] then returns 2,
    not 3. *)
Lemma extract_discnumber_two_calls_counterexample :
  let w0 := new_AddClusterAsRelease example_config in
  let w1 := (extract_discnumber (tagged [("discnumber", "-1/4")] 0) w0).2 in
  let r2 := extract_discnumber (tagged [("discnumber", "1/4")] 0) w1 in
  r2.1 = Ok 2 /\ discnumber_shift r2.2 = 1 /\
  ~ (r2.1 = Ok 3 /\ discnumber_shift r2.2 = 2).
Proof.
  cbv zeta. split; [reflexivity|]. split; [reflexivity|].
  intros [H _]. vm_compute in H. discriminate H.
Qed.

(** C2, amended: on an object that starts with the shift of [__init__],
    the call on ["-1/4"] returns 0 and raises the shift from -1 to 1, and
    the call on ["1/4"] that follows returns 2, which is 1 plus the raised
    shift.  From any shift [s] the two calls leave the shift at
    [max s 1] and the second returns [1 + max s 1]; so the second call
    returns 3 with the shift at 2 exactly when the shift was 2 before the
    two calls.  That is the state of the doctest, where a call on
    ["-2/2"] comes first: it returns 0 and leaves the shift at 2, and the
    call on ["-1/4"] then returns 1. *)
Theorem extract_discnumber_two_calls (a b c : Picard.Metadata) (w w' : World) :
  discnumber_shift w = -1 ->
  Picard.tags a !! "discnumber" = Some "-1/4" ->
  Picard.tags b !! "discnumber" = Some "1/4" ->
  Picard.tags c !! "discnumber" = Some "-2/2" ->
  (let r1 := extract_discnumber a w in
   let r2 := extract_discnumber b r1.2 in
   r1.1 = Ok 0 /\ discnumber_shift r1.2 = 1 /\
   r2.1 = Ok 2 /\ discnumber_shift r2.2 = 1) /\
  (let r0 := extract_discnumber c w in
   let r1 := extract_discnumber a r0.2 in
   let r2 := extract_discnumber b r1.2 in
   r0.1 = Ok 0 /\ discnumber_shift r0.2 = 2 /\
   r1.1 = Ok 1 /\ discnumber_shift r1.2 = 2 /\
   r2.1 = Ok 3 /\ discnumber_shift r2.2 = 2) /\
  (let r1 := extract_discnumber a w' in
   let r2 := extract_discnumber b r1.2 in
   r1.1 = Ok (Z.max (discnumber_shift w') 1 - 1) /\
   discnumber_shift r1.2 = Z.max (discnumber_shift w') 1 /\
   r2.1 = Ok (1 + Z.max (discnumber_shift w') 1) /\
   discnumber_shift r2.2 = Z.max (discnumber_shift w') 1 /\
   (r2.1 = Ok 3 /\ discnumber_shift r2.2 = 2 <-> discnumber_shift w' = 2)).
Proof.
  intros Hw Ha Hb Hc. cbv zeta.
  assert (Hta : Py.int (discnumber_text a) = Some (-1))
    by (unfold discnumber_text, Picard.get; by rewrite Ha).
  assert (Htb : Py.int (discnumber_text b) = Some 1)
    by (unfold discnumber_text, Picard.get; by rewrite Hb).
  assert (Htc : Py.int (discnumber_text c) = Some (-2))
    by (unfold discnumber_text, Picard.get; by rewrite Hc).
  split; [|split].
  - rewrite (extract_discnumber_parsed a w _ Hta), Hw. cbn.
    rewrite (extract_discnumber_parsed b _ _ Htb). cbn.
    by repeat split.
  - rewrite (extract_discnumber_parsed c w _ Htc), Hw. cbn.
    rewrite (extract_discnumber_parsed a _ _ Hta). cbn.
    rewrite (extract_discnumber_parsed b _ _ Htb). cbn.
    by repeat split.
  - rewrite (extract_discnumber_parsed a w' _ Hta).
    cbn [fst snd Z.leb Z.compare discnumber_shift with_discnumber_shift].
    rewrite (extract_discnumber_parsed b _ _ Htb).
    cbn [fst snd Z.leb Z.compare Pos.compare Pos.compare_cont
         discnumber_shift with_discnumber_shift].
    change (0 - -1) with 1.
    set (s := Z.max (discnumber_shift w') 1).
    split; [f_equal; lia|]. split; [done|]. split; [done|]. split; [done|].
    subst s. split.
    + intros [_ Hs]. lia.
    + intros Hs. rewrite Hs. by split.
Qed.

Lemma extract_discnumber_two_calls_witness :
  let a := tagged [("discnumber", "-1/4")] 0 in
  let b := tagged [("discnumber", "1/4")] 0 in
  let c := tagged [("discnumber", "-2/2")] 0 in
  let w := new_AddClusterAsRelease example_config in
  let w' := with_discnumber_shift 2 (new_AddClusterAsRelease example_config) in
  (let r1 := extract_discnumber a w in
   let r2 := extract_discnumber b r1.2 in
   r1.1 = Ok 0 /\ discnumber_shift r1.2 = 1 /\
   r2.1 = Ok 2 /\ discnumber_shift r2.2 = 1) /\
  (let r0 := extract_discnumber c w in
   let r1 := extract_discnumber a r0.2 in
   let r2 := extract_discnumber b r1.2 in
   r0.1 = Ok 0 /\ discnumber_shift r0.2 = 2 /\
   r1.1 = Ok 1 /\ discnumber_shift r1.2 = 2 /\
   r2.1 = Ok 3 /\ discnumber_shift r2.2 = 2) /\
  (let r1 := extract_discnumber a w' in
   let r2 := extract_discnumber b r1.2 in
   r1.1 = Ok 1 /\
   discnumber_shift r1.2 = 2 /\
   r2.1 = Ok 3 /\
   discnumber_shift r2.2 = 2 /\
   (r2.1 = Ok 3 /\ discnumber_shift r2.2 = 2 <-> discnumber_shift w' = 2)).
Proof.
  exact (extract_discnumber_two_calls
           (tagged [("discnumber", "-1/4")] 0)
           (tagged [("discnumber", "1/4")] 0)
           (tagged [("discnumber", "-2/2")] 0)
           (new_AddClusterAsRelease example_config)
           (with_discnumber_shift 2 (new_AddClusterAsRelease example_config))
           eq_refl eq_refl eq_refl eq_refl).
Defined.

(** The shift 2 need not come from ["-2/2"]: after a call on ["-2"] the
    two calls return 1 and 3 just the same. *)
Example doctest_numbers_after_minus_two :
  (extract_discnumbers [tagged [("discnumber", "-2")] 0;
                        tagged [("discnumber", "-1/4")] 0;
                        tagged [("discnumber", "1/4")] 0]
                       (new_AddClusterAsRelease example_config)).1 = Ok [0; 1; 3].
Proof. vm_compute. reflexivity. Qed.

(** C10: [check_object] reads [objs[0]] before it looks at the length.  On
    the empty list that read raises [IndexError], so the call returns
    nothing, [False] included.  On a list with a first item it returns that
    item when the item is an instance of [objtype] and the list has no
    other item, and [False] otherwise; it changes nothing. *)
Theorem check_object_spec :
  (forall objtype w, check_object [] objtype w = (Raise IndexError, w)) /\
  (forall o objs objtype w,
     check_object (o :: objs) objtype w =
       (Ok (if Picard.isinstance o objtype && bool_decide (List.length (o :: objs) = 1%nat)
            then CObj o else CFalse), w)).
Proof.
  split; intros.
  - by rewrite check_object_run.
  - rewrite check_object_run. by destruct objs.
Qed.

(** *** Dictionaries *)

Section dict.
Implicit Types (d : Py.dict) (k v : string) (l : list (string * string)).

Lemma get_setitem_eq d k v : Py.get (Py.setitem d k v) k = Some v.
Proof.
  induction d as [|[k' v'] d IH]; cbn.
  - by rewrite String.eqb_refl.
  - destruct (String.eqb_spec k' k) as [->|Hne]; cbn.
    + by rewrite String.eqb_refl.
    + destruct (String.eqb_spec k' k); [done|]. apply IH.
Qed.

Lemma get_setitem_ne d k v k' : k ≠ k' -> Py.get (Py.setitem d k v) k' = Py.get d k'.
Proof.
  intros Hne. induction d as [|[k0 v0] d IH]; cbn.
  - by destruct (String.eqb_spec k k').
  - destruct (String.eqb_spec k0 k) as [->|Hk0]; cbn.
    + by destruct (String.eqb_spec k k').
    + destruct (String.eqb_spec k0 k'); [done|]. apply IH.
Qed.

Lemma get_setitem d k v k' :
  Py.get (Py.setitem d k v) k' = if String.eqb k k' then Some v else Py.get d k'.
Proof.
  destruct (String.eqb_spec k k') as [<-|Hne].
  - apply get_setitem_eq.
  - by apply get_setitem_ne.
Qed.

Lemma get_None d k : Py.get d k = None <-> k ∉ Py.keys d.
Proof.
  induction d as [|[k' v'] d IH]; cbn.
  - split; [intros _; apply not_elem_of_nil|done].
  - rewrite not_elem_of_cons. destruct (String.eqb_spec k' k) as [->|Hne].
    + split; [done|]. by intros [? _].
    + rewrite IH. split; [|by intros [_ ?]]. intros ?. by split; [congruence|].
Qed.

Lemma get_Some_keys d k v : Py.get d k = Some v -> k ∈ Py.keys d.
Proof.
  intros Hget. destruct (decide (k ∈ Py.keys d)) as [|Hn]; [done|].
  apply get_None in Hn. congruence.
Qed.

Lemma setitem_present d k v : k ∈ Py.keys d -> Py.keys (Py.setitem d k v) = Py.keys d.
Proof.
  induction d as [|[k' v'] d IH]; cbn.
  - by intros ?%elem_of_nil.
  - intros Hin. destruct (String.eqb_spec k' k) as [->|Hne]; [done|].
    cbn. f_equal. apply IH. apply elem_of_cons in Hin as [->|]; [done|done].
Qed.

Lemma setitem_absent d k v : k ∉ Py.keys d -> Py.setitem d k v = d ++ [(k, v)].
Proof.
  induction d as [|[k' v'] d IH]; cbn; [done|].
  intros [Hne Hnin]%not_elem_of_cons.
  destruct (String.eqb_spec k' k); [congruence|]. by rewrite IH.
Qed.

(** Assignment keeps the keys free of repetitions. *)
Lemma setitem_NoDup d k v : NoDup (Py.keys d) -> NoDup (Py.keys (Py.setitem d k v)).
Proof.
  intros Hd. destruct (decide (k ∈ Py.keys d)) as [Hin|Hnin].
  - by rewrite setitem_present.
  - rewrite setitem_absent by done. unfold Py.keys in *. rewrite fmap_app.
    apply NoDup_app. split; [done|]. split; [|apply NoDup_singleton].
    intros k' Hk' ->%list_elem_of_singleton. done.
Qed.

Lemma setitems_cons d k v l : setitems d ((k, v) :: l) = setitems (Py.setitem d k v) l.
Proof. reflexivity. Qed.

Lemma setitems_app d l l' : setitems d (l ++ l') = setitems (setitems d l) l'.
Proof. apply fold_left_app. Qed.

Lemma get_setitems d l k :
  Py.get (setitems d l) k =
  match last_write l k with
  | Some v => Some v
  | None => Py.get d k
  end.
Proof.
  revert d. induction l as [|[k' v'] l IH]; intros d; [done|].
  rewrite setitems_cons, IH. cbn [last_write].
  destruct (last_write l k); [done|].
  rewrite get_setitem. by destruct (String.eqb k' k).
Qed.

Lemma keys_setitems d l :
  Py.keys (setitems d l)
  = Py.keys d ++ filter (fun k => k ∉ Py.keys d) (first_occurrences l.*1).
Proof.
  revert d. induction l as [|[k v] l IH]; intros d.
  - cbn. by rewrite app_nil_r.
  - rewrite setitems_cons, IH. cbn [fmap list_fmap fst first_occurrences].
    destruct (decide (k ∈ Py.keys d)) as [Hin|Hnin].
    + rewrite setitem_present by done.
      rewrite filter_cons_False by (by intros ?).
      rewrite list_filter_filter. f_equal. apply list_filter_iff.
      intros k'. split; [|by intros [? _]].
      intros Hk'. split; [done|]. by intros ->.
    + rewrite setitem_absent by done.
      rewrite filter_cons_True by done.
      replace (Py.keys (d ++ [(k, v)])) with (Py.keys d ++ [k])
        by (unfold Py.keys; by rewrite fmap_app).
      rewrite <- app_assoc. cbn.
      f_equal. f_equal. rewrite list_filter_filter. apply list_filter_iff.
      intros k'. rewrite not_elem_of_app, not_elem_of_cons.
      split; [intros [? [? _]]|intros [? ?]]; repeat split; try done.
      apply not_elem_of_nil.
Qed.

Lemma keys_setitems_nil l : Py.keys (setitems [] l) = first_occurrences l.*1.
Proof.
  rewrite keys_setitems. cbn.
  induction (first_occurrences l.*1) as [|k ks IH]; [done|].
  rewrite filter_cons_True by apply not_elem_of_nil. by rewrite IH.
Qed.
End dict.

(** *** The loop of [set_form_values] *)

Lemma extract_discnumber_medium (metadata : Picard.Metadata) (w : World) :
  extract_discnumber metadata w
  = (Ok (medium_number (discnumber_shift w) metadata), (extract_discnumber metadata w).2)
  /\ form_values (extract_discnumber metadata w).2 = form_values w.
Proof.
  rewrite extract_discnumber_run. unfold medium_number.
  by destruct (Py.int _).
Qed.

(** One round: the track index and the medium number are computed, then
    the pairs of [track_items] are stored in the order of the list. *)
Lemma set_track_values_run (cluster : Picard.Cluster) (i : nat) (file : Picard.File) (w : World) :
  set_track_values cluster i file w =
  (Ok tt,
   with_form_values
     (setitems (form_values w)
               (track_items cluster
                            (medium_number (discnumber_shift w) (Picard.file_metadata file))
                            (track_number i file) file))
     (extract_discnumber (Picard.file_metadata file) w).2).
Proof.
  unfold set_track_values. rewrite bind_run, track_index_run. fold (track_number i file).
  rewrite bind_run.
  destruct (extract_discnumber_medium (Picard.file_metadata file) w) as [Hrun Hfv].
  rewrite Hrun. cbn [snd].
  set (w1 := (extract_discnumber (Picard.file_metadata file) w).2) in *.
  unfold track_items. rewrite !bind_run, add_form_value_run.
  rewrite Hfv. case_bool_decide; reflexivity.
Qed.

Lemma set_track_values_shift (cluster : Picard.Cluster) (i : nat) (file : Picard.File) (w : World) :
  discnumber_shift (set_track_values cluster i file w).2
  = shift_after (discnumber_shift w) (Picard.file_metadata file).
Proof. rewrite set_track_values_run. cbn. apply extract_discnumber_shift. Qed.

Lemma for_enumerate_app {A} (i : nat) (l l' : list A) (body : nat -> A -> M unit) (w : World) :
  for_enumerate i (l ++ l') body w =
  (for_enumerate i l body;; for_enumerate (i + List.length l) l' body) w.
Proof.
  revert i w. induction l as [|x l IH]; intros i w.
  - cbn. by rewrite Nat.add_0_r.
  - cbn [app for_enumerate List.length]. rewrite !bind_run.
    destruct (body i x w) as [[[]|e] w1]; [|done].
    rewrite IH, bind_run. by replace (S i + List.length l)%nat with (i + S (List.length l))%nat by lia.
Qed.

(** The loop never raises; it stores the pairs of [track_writes] and moves
    the shift as the calls of [extract_discnumber] on the files do. *)
Lemma track_loop_run (cluster : Picard.Cluster) (l : list Picard.File) (i : nat) (w : World) :
  exists w',
    for_enumerate i l (set_track_values cluster) w = (Ok tt, w') /\
    form_values w' = setitems (form_values w) (track_writes cluster i l (discnumber_shift w)) /\
    discnumber_shift w'
      = fold_left shift_after (Picard.file_metadata <$> l) (discnumber_shift w).
Proof.
  revert i w. induction l as [|file l IH]; intros i w.
  - by exists w.
  - cbn [for_enumerate track_writes]. rewrite bind_run, set_track_values_run.
    pose proof (extract_discnumber_shift (Picard.file_metadata file) w) as Hs.
    set (w1 := with_form_values _ _).
    destruct (IH (S i) w1) as (w' & Hrun & Hfv & Hsh).
    exists w'. split; [done|]. split.
    + rewrite Hfv, setitems_app. subst w1. cbn. by rewrite Hs.
    + rewrite Hsh. subst w1. cbn. by rewrite Hs.
Qed.

Lemma set_form_values_run (cluster : Picard.Cluster) (w : World) :
  exists w',
    set_form_values cluster w = (Ok tt, w') /\
    form_values w' = setitems (form_values w) (form_writes cluster (discnumber_shift w)) /\
    discnumber_shift w'
      = fold_left shift_after (Picard.file_metadata <$> Picard.files cluster) (discnumber_shift w).
Proof.
  unfold set_form_values. rewrite bind_run, add_form_value_run.
  rewrite bind_run, add_form_value_run.
  match goal with
  | |- context [for_enumerate 0%nat _ _ ?w1] =>
      destruct (track_loop_run cluster (Picard.files cluster) 0 w1) as (w' & Hrun & Hfv & Hsh)
  end.
  exists w'. split; [done|]. split; [|done].
  rewrite Hfv. unfold form_writes. by rewrite setitems_app.
Qed.

(** C5: [__init__] sets the shift to -1.  A call of [extract_discnumber]
    leaves the shift as it was when the tag reads as a number above 0 or as
    no number, and makes it [max shift (-m)] when the tag reads as a number
    [m] at most 0; either way the shift does not go down, so it does not go
    down over any run of calls.  No other method writes the attribute:
    [check_object], [add_form_value], the track-number lookup,
    [generate_html_file], [open_html_file] and the clearing of the form
    values return it unchanged, and what a round of the loop and the whole
    of [set_form_values] do to it is what their calls of
    [extract_discnumber] do. *)
Theorem discnumber_shift_monotone :
  (forall cfg, discnumber_shift (new_AddClusterAsRelease cfg) = -1) /\
  (forall metadata w,
     discnumber_shift (extract_discnumber metadata w).2 =
       match Py.int (Py.split1_head "/" (Picard.get metadata "discnumber" "1")) with
       | Some m => if m <=? 0 then Z.max (discnumber_shift w) (- m) else discnumber_shift w
       | None => discnumber_shift w
       end /\
     discnumber_shift w <= discnumber_shift (extract_discnumber metadata w).2) /\
  (forall l l' w,
     discnumber_shift w <= discnumber_shift (extract_discnumbers l w).2 /\
     discnumber_shift (extract_discnumbers l w).2
       <= discnumber_shift (extract_discnumbers (l ++ l') w).2) /\
  (forall objs cls w, discnumber_shift (check_object objs cls w).2 = discnumber_shift w) /\
  (forall key value w, discnumber_shift (add_form_value key value w).2 = discnumber_shift w) /\
  (forall i file w, discnumber_shift (track_index i file w).2 = discnumber_shift w) /\
  (forall name path d w,
     discnumber_shift (generate_html_file name path d w).2 = discnumber_shift w) /\
  (forall fp w, discnumber_shift (open_html_file fp w).2 = discnumber_shift w) /\
  (forall w, discnumber_shift ((fv ← get_form_values; set_form_values_attr (Py.clear fv)) w).2
             = discnumber_shift w) /\
  (forall cluster i file w,
     discnumber_shift (set_track_values cluster i file w).2
     = discnumber_shift (extract_discnumber (Picard.file_metadata file) w).2) /\
  (forall cluster w,
     discnumber_shift (set_form_values cluster w).2
     = discnumber_shift
         (extract_discnumbers (Picard.file_metadata <$> Picard.files cluster) w).2).
Proof.
  split; [reflexivity|]. split.
  { intros metadata w. rewrite extract_discnumber_shift. split.
    - unfold shift_after, discnumber_text. destruct (Py.int _) as [m|]; [|reflexivity].
      by replace (0 - m) with (- m) by lia.
    - apply shift_after_ge. }
  split.
  { intros l l' w. rewrite !extract_discnumbers_shift, fold_left_app. split.
    - apply fold_shift_after_ge.
    - apply fold_shift_after_ge. }
  split. { intros objs cls w. rewrite check_object_run. by destruct objs. }
  split; [reflexivity|].
  split. { intros i file w. by rewrite track_index_run. }
  split. { apply generate_html_file_shift. }
  split; [reflexivity|]. split; [reflexivity|]. split.
  { intros cluster i file w.
    by rewrite set_track_values_shift, extract_discnumber_shift. }
  intros cluster w.
  destruct (set_form_values_run cluster w) as (w' & Hrun & _ & Hsh).
  rewrite Hrun. cbn [snd]. by rewrite Hsh, extract_discnumbers_shift.
Qed.

(** *** Field names *)

Lemma append_inj_r (a b c : string) : a +:+ b = a +:+ c -> b = c.
Proof. induction a as [|x a IH]; cbn; [done|]. intros [= H]. by apply IH. Qed.

Lemma track_field_inj_name (m i : Z) (n n' : string) :
  track_field m i n = track_field m i n' -> n = n'.
Proof.
  unfold track_field. intros H.
  by do 5 apply append_inj_r in H.
Qed.

Lemma track_field_head (m i : Z) (n : string) :
  exists s, track_field m i n = String "m" s.
Proof. unfold track_field. cbn. by eexists. Qed.

Lemma track_field_not_release (m i : Z) (n : string) :
  track_field m i n ≠ "artist_credit.names.0.artist.name" /\ track_field m i n ≠ "name".
Proof. destruct (track_field_head m i n) as [s ->]. by split. Qed.

Lemma track_items_keys (cluster : Picard.Cluster) (m i : Z) (file : Picard.File) :
  Forall (fun kv => exists n, kv.1 = track_field m i n) (track_items cluster m i file).
Proof.
  unfold track_items. repeat apply Forall_app_2; try case_bool_decide;
    repeat constructor; by eexists.
Qed.

Lemma track_writes_keys (cluster : Picard.Cluster) (l : list Picard.File) (i : nat) (shift : Z) :
  Forall (fun kv => exists m j n, kv.1 = track_field m j n) (track_writes cluster i l shift).
Proof.
  revert i shift. induction l as [|file l IH]; intros i shift;
    cbn [track_writes]; [constructor|].
  apply Forall_app_2; [|apply IH].
  eapply Forall_impl; [apply track_items_keys|]. cbn. intros kv [n Hn]. eauto.
Qed.

(** *** Cutting the loop at a file *)

Lemma set_form_values_loop (cluster : Picard.Cluster) (w : World) :
  set_form_values cluster w
  = for_enumerate 0 (Picard.files cluster) (set_track_values cluster)
      (with_form_values (setitems (form_values w) (release_items cluster)) w).
Proof. reflexivity. Qed.

Lemma set_form_values_first_files (cluster : Picard.Cluster) (p : nat) (file : Picard.File) (w : World) :
  Picard.files cluster !! p = Some file ->
  set_form_values (first_files (S p) cluster) w
  = (set_form_values (first_files p cluster);; set_track_values cluster p file) w.
Proof.
  intros Hp. rewrite bind_run, !set_form_values_loop.
  change (release_items (first_files (S p) cluster)) with (release_items cluster).
  change (release_items (first_files p cluster)) with (release_items cluster).
  change (set_track_values (first_files (S p) cluster)) with (set_track_values cluster).
  change (set_track_values (first_files p cluster)) with (set_track_values cluster).
  cbn [first_files Picard.files].
  rewrite (take_S_r _ _ _ Hp), for_enumerate_app, bind_run.
  destruct (for_enumerate 0 (take p (Picard.files cluster)) _ _) as [[[]|e] w2]; [|done].
  cbn [for_enumerate]. rewrite bind_run.
  rewrite length_take_le by (apply lookup_lt_Some in Hp; lia).
  cbn [Nat.add].
  destruct (set_track_values cluster p file w2) as [[[]|e] w3]; done.
Qed.

Lemma setitems_app_l (d0 d : Py.dict) (l : list (string * string)) :
  Forall (fun kv => kv.1 ∉ Py.keys d0) l ->
  setitems (d0 ++ d) l = d0 ++ setitems d l.
Proof.
  revert d. induction l as [|[k v] l IH]; intros d Hl; [done|].
  apply Forall_cons in Hl as [Hk Hl]. cbn in Hk.
  rewrite !setitems_cons, <- IH by done. f_equal.
  clear -Hk. induction d0 as [|[k0 v0] d0 IH]; [done|].
  cbn in *. apply not_elem_of_cons in Hk as [Hne Hk].
  destruct (String.eqb_spec k0 k); [congruence|]. by rewrite IH.
Qed.

(** *** The claims on the form values *)

(** One round of the loop of the cluster action, run from any state: the
    pairs stored are those of [track_items]; the key
    [mediums.m.track.i.artist_credit.names.0.name] (with the medium number
    [m] that [extract_discnumber] returns and the track index [i] of the
    round) is among them exactly when the file's artist differs from the
    cluster's album artist.  When the two differ the key holds the file's
    artist after the round; when they are equal the round leaves whatever
    the dictionary held under that key. *)
Lemma set_track_values_artist_credit
    (cluster : Picard.Cluster) (i : nat) (file : Picard.File) (w : World) :
  let artist := Picard.getitem (Picard.file_metadata file) "artist" in
  let albumartist := Picard.getitem (Picard.metadata cluster) "albumartist" in
  let m := medium_number (discnumber_shift w) (Picard.file_metadata file) in
  let key := track_field m (track_number i file) "artist_credit.names.0.name" in
  let w' := (set_track_values cluster i file w).2 in
  (extract_discnumber (Picard.file_metadata file) w).1 = Ok m /\
  (track_index i file w).1 = Ok (track_number i file) /\
  (set_track_values cluster i file w).1 = Ok tt /\
  form_values w' = setitems (form_values w) (track_items cluster m (track_number i file) file) /\
  (key ∈ (track_items cluster m (track_number i file) file).*1 <-> artist ≠ albumartist) /\
  (if bool_decide (artist = albumartist)
   then Py.get (form_values w') key = Py.get (form_values w) key
   else Py.get (form_values w') key = Some artist).
Proof.
  cbv zeta.
  destruct (extract_discnumber_medium (Picard.file_metadata file) w) as [Hm Hfv].
  split; [by rewrite Hm|]. split; [by rewrite track_index_run|].
  rewrite set_track_values_run. cbn [fst snd].
  split; [done|]. split; [done|].
  set (m := medium_number _ _). set (j := track_number i file).
  unfold track_items.
  assert (Hn : track_field m j "artist_credit.names.0.name" ≠ track_field m j "name")
    by (by intros ?%track_field_inj_name).
  assert (Hl : track_field m j "artist_credit.names.0.name" ≠ track_field m j "length")
    by (by intros ?%track_field_inj_name).
  split.
  - case_bool_decide as Hd; cbn.
    + split; [done|]. intros _. rewrite !elem_of_cons. by right; left.
    + split; [|done]. rewrite !elem_of_cons.
      intros [?|[?|?%elem_of_nil]]; done.
  - cbn [form_values with_form_values]. rewrite get_setitems.
    case_bool_decide as Heq.
    + rewrite bool_decide_false by (by intros ?). cbn.
      destruct (String.eqb_spec (track_field m j "length")
                                (track_field m j "artist_credit.names.0.name")); [congruence|].
      destruct (String.eqb_spec (track_field m j "name")
                                (track_field m j "artist_credit.names.0.name")); [congruence|].
      done.
    + rewrite bool_decide_true by done. cbn.
      destruct (String.eqb_spec (track_field m j "length")
                                (track_field m j "artist_credit.names.0.name")); [congruence|].
      by rewrite String.eqb_refl.
Qed.

(** Two files that share disc and track number share their keys: the key
    the second one stores for its artist stays in the dictionary although
    the round of the first one, whose artist is the album artist, stored
    none. *)
Example artist_credit_shared_key :
  let same := {| Picard.file_metadata :=
                   tagged [("tracknumber", "1"); ("title", "One"); ("artist", "A")] 1 |} in
  let other := {| Picard.file_metadata :=
                    tagged [("tracknumber", "1"); ("title", "Uno"); ("artist", "B")] 2 |} in
  let cluster := {| Picard.metadata := tagged [("albumartist", "A"); ("album", "Alb")] 0;
                    Picard.files := [same; other] |} in
  form_values (set_form_values cluster (new_AddClusterAsRelease example_config)).2
  = [("artist_credit.names.0.artist.name", "A"); ("name", "Alb");
     ("mediums.0.track.0.name", "Uno"); ("mediums.0.track.0.length", "2");
     ("mediums.0.track.0.artist_credit.names.0.name", "B")].
Proof. vm_compute. reflexivity. Qed.

(** C8: for the file at position [p] of the cluster's files, the round of
    the loop that handles it starts in the state the rounds of the first
    [p] files leave, and every key it stores is built with the track index
    [int(tracknumber) - 1] when the tag reads as an integer and with [p]
    otherwise.  Neither the rounds nor the whole of [set_form_values]
    raise. *)
Theorem track_index_of_position
    (cluster : Picard.Cluster) (w : World) (p : nat) (file : Picard.File) :
  Picard.files cluster !! p = Some file ->
  let before := set_form_values (first_files p cluster) w in
  let after := set_form_values (first_files (S p) cluster) w in
  let m := medium_number (discnumber_shift before.2) (Picard.file_metadata file) in
  let i := match Py.int (Picard.getitem (Picard.file_metadata file) "tracknumber") with
           | Some n => n - 1
           | None => Z.of_nat p
           end in
  before.1 = Ok tt /\
  after = set_track_values cluster p file before.2 /\
  (track_index p file before.2).1 = Ok i /\
  (extract_discnumber (Picard.file_metadata file) before.2).1 = Ok m /\
  after.1 = Ok tt /\
  form_values after.2 = setitems (form_values before.2) (track_items cluster m i file) /\
  Forall (fun kv => exists n, kv.1 = track_field m i n) (track_items cluster m i file) /\
  Py.get (form_values after.2) (track_field m i "name")
    = Some (Picard.getitem (Picard.file_metadata file) "title") /\
  Py.get (form_values after.2) (track_field m i "length")
    = Some (Py.str (Picard.length (Picard.file_metadata file))) /\
  (set_form_values cluster w).1 = Ok tt.
Proof.
  intros Hp. cbv zeta.
  rewrite (set_form_values_first_files cluster p file w Hp), bind_run.
  destruct (set_form_values_run (first_files p cluster) w) as (w1 & Hrun & _).
  rewrite Hrun. cbn [fst snd].
  split; [done|]. split; [done|].
  split; [by rewrite track_index_run|].
  destruct (extract_discnumber_medium (Picard.file_metadata file) w1) as [Hm Hfv].
  split; [by rewrite Hm|].
  rewrite set_track_values_run. cbn [fst snd form_values with_form_values].
  fold (track_number p file).
  set (m := medium_number _ _). set (i := track_number p file).
  split; [done|]. split; [done|]. split; [apply track_items_keys|].
  assert (Hna : track_field m i "artist_credit.names.0.name" ≠ track_field m i "name")
    by (by intros ?%track_field_inj_name).
  assert (Hnl : track_field m i "length" ≠ track_field m i "name")
    by (by intros ?%track_field_inj_name).
  split; [|split].
  - rewrite get_setitems. unfold track_items. case_bool_decide; cbn.
    + destruct (String.eqb_spec (track_field m i "length") (track_field m i "name"));
        [congruence|].
      destruct (String.eqb_spec (track_field m i "artist_credit.names.0.name")
                                (track_field m i "name")); [congruence|].
      by rewrite String.eqb_refl.
    + destruct (String.eqb_spec (track_field m i "length") (track_field m i "name"));
        [congruence|].
      by rewrite String.eqb_refl.
  - rewrite get_setitems. unfold track_items. case_bool_decide; cbn;
      by rewrite String.eqb_refl.
  - destruct (set_form_values_run cluster w) as (w' & -> & _). done.
Qed.

Lemma track_index_of_position_witness :
  let w := new_AddClusterAsRelease example_config in
  let after1 := set_form_values (first_files 1 example_cluster) w in
  let after2 := set_form_values (first_files 2 example_cluster) w in
  form_values after1.2 =
    setitems (release_items example_cluster)
             [("mediums.0.track.0.name", "One"); ("mediums.0.track.0.length", "1000")] /\
  form_values after2.2 =
    setitems (form_values after1.2)
             [("mediums.0.track.1.name", "Two");
              ("mediums.0.track.1.artist_credit.names.0.name", "B");
              ("mediums.0.track.1.length", "2000")].
Proof.
  cbv zeta. split.
  - exact (proj1 (proj2 (proj2 (proj2 (proj2 (proj2
             (track_index_of_position example_cluster
                (new_AddClusterAsRelease example_config) 0
                {| Picard.file_metadata :=
                     tagged [("discnumber", "1"); ("tracknumber", "1"); ("title", "One");
                             ("artist", "A")] 1000 |}
                eq_refl))))))).
  - exact (proj1 (proj2 (proj2 (proj2 (proj2 (proj2
             (track_index_of_position example_cluster
                (new_AddClusterAsRelease example_config) 1
                {| Picard.file_metadata :=
                     tagged [("discnumber", "-1"); ("tracknumber", "x"); ("title", "Two");
                             ("artist", "B")] 2000 |}
                eq_refl))))))).
Defined.

(** C9: [add_form_value] on a key the dictionary holds replaces the value
    and leaves the keys and their order as they were; on a new key it adds
    the key at the end; other keys keep their values.  In the cluster
    action, run on the empty dictionary that every call of [callback]
    starts from, the dictionary begins with the two release fields,
    [artist_credit.names.0.artist.name] and then [name], with the cluster's
    values; the track fields follow, file after file in the order of the
    cluster's files, each key at the place of its first write and with the
    value of its last write. *)
Theorem form_values_order :
  (forall key value w,
     let d := form_values w in
     let d' := form_values (add_form_value key value w).2 in
     (add_form_value key value w).1 = Ok tt /\
     Py.get d' key = Some value /\
     (forall k, k ≠ key -> Py.get d' k = Py.get d k) /\
     Py.keys d' = (if bool_decide (key ∈ Py.keys d) then Py.keys d else Py.keys d ++ [key])) /\
  (forall cluster w,
     form_values w = [] ->
     let d := form_values (set_form_values cluster w).2 in
     let writes := form_writes cluster (discnumber_shift w) in
     let tracks := track_writes cluster 0 (Picard.files cluster) (discnumber_shift w) in
     (set_form_values cluster w).1 = Ok tt /\
     writes = release_items cluster ++ tracks /\
     d = setitems [] writes /\
     Py.keys d = first_occurrences writes.*1 /\
     (forall k, Py.get d k = last_write writes k) /\
     d = [("artist_credit.names.0.artist.name",
           Picard.getitem (Picard.metadata cluster) "albumartist");
          ("name", Picard.getitem (Picard.metadata cluster) "album")]
         ++ setitems [] tracks /\
     Py.keys (setitems [] tracks) = first_occurrences tracks.*1 /\
     (forall k, Py.get (setitems [] tracks) k = last_write tracks k)) /\
  (forall cluster i l l' shift,
     track_writes cluster i (l ++ l') shift
     = track_writes cluster i l shift
       ++ track_writes cluster (i + List.length l) l'
            (fold_left shift_after (Picard.file_metadata <$> l) shift)).
Proof.
  split; [|split].
  - intros key value w. cbv zeta. rewrite add_form_value_run.
    cbn [fst snd form_values with_form_values].
    split; [done|]. split; [apply get_setitem_eq|].
    split; [intros k Hk; by apply get_setitem_ne|].
    case_bool_decide.
    + by apply setitem_present.
    + rewrite setitem_absent by done. unfold Py.keys. by rewrite fmap_app.
  - intros cluster w Hw. cbv zeta.
    destruct (set_form_values_run cluster w) as (w' & Hrun & Hfv & _).
    rewrite Hrun. cbn [fst snd]. rewrite Hfv, Hw.
    split; [done|]. split; [done|]. split; [done|].
    split; [apply keys_setitems_nil|].
    split; [intros k; rewrite get_setitems; by destruct (last_write _ k)|].
    split; [|split; [apply keys_setitems_nil|
                     intros k; rewrite get_setitems; by destruct (last_write _ k)]].
    unfold form_writes. rewrite setitems_app.
    change (setitems [] (release_items cluster)) with (release_items cluster ++ []).
    rewrite setitems_app_l; [done|].
    eapply Forall_impl; [apply track_writes_keys|].
    intros [k v] (m & j & n & Hk). cbn in Hk |- *. subst k.
    destruct (track_field_not_release m j n) as [H1 H2].
    rewrite !not_elem_of_cons. split; [done|]. split; [done|]. apply not_elem_of_nil.
  - intros cluster i l. revert i. induction l as [|file l IH]; intros i l' shift.
    + cbn. by rewrite Nat.add_0_r.
    + cbn [app track_writes fmap list_fmap fold_left List.length]. rewrite IH, <- app_assoc.
      by replace (S i + List.length l)%nat with (i + S (List.length l))%nat by lia.
Qed.

Lemma form_values_order_witness :
  form_values (set_form_values example_cluster (new_AddClusterAsRelease example_config)).2
  = [("artist_credit.names.0.artist.name", "A"); ("name", "Alb")]
    ++ setitems [] (track_writes example_cluster 0 (Picard.files example_cluster) (-1)).
Proof.
  exact (proj1 (proj2 (proj2 (proj2 (proj2 (proj2
           (proj1 (proj2 form_values_order) example_cluster
                  (new_AddClusterAsRelease example_config) eq_refl))))))).
Defined.

(** *** One object, several calls of [callback] *)

(** [callback] hands back an empty dictionary whenever it got one, and
    always when the selection is not empty. *)
Lemma callback_form_values (objs : list Picard.Obj) (w : World) :
  form_values w = [] \/ objs ≠ [] ->
  form_values (callback objs w).2 = [].
Proof.
  intros Hpre. unfold callback. rewrite bind_run, check_object_run.
  destruct objs as [|o objs]; [by destruct Hpre|].
  unfold try_finally.
  match goal with |- context [match ?body w with _ => _ end] => destruct (body w) as [r w'] end.
  reflexivity.
Qed.

(** What a call of [callback] on a cluster with files leaves in the shift:
    the value the calls of [extract_discnumber] on the files moved it to.
    Nothing puts it back to -1. *)
Lemma callback_discnumber_shift (cluster : Picard.Cluster) (w : World) :
  Picard.files cluster ≠ [] ->
  discnumber_shift (callback [Picard.OCluster cluster] w).2
  = fold_left shift_after (Picard.file_metadata <$> Picard.files cluster) (discnumber_shift w).
Proof.
  intros Hfiles. unfold callback. rewrite bind_run, check_object_run.
  cbn [Picard.isinstance objtype andb]. rewrite bool_decide_true by done.
  unfold try_finally, Checked_truth, Picard.truth.
  destruct (Picard.files cluster) as [|file l] eqn:Hl; [done|].
  cbn [List.length Nat.eqb negb]. rewrite bind_run.
  destruct (set_form_values_run cluster w) as (w1 & Hrun & _ & Hsh).
  rewrite Hrun, Hl in *. rewrite <- Hsh. rewrite bind_run. cbn [get_form_values].
  rewrite bind_run.
  pose proof (generate_html_file_shift NAME submit_path (form_values w1) w1) as Hg.
  destruct (generate_html_file NAME submit_path (form_values w1) w1) as [[fp|e] w2];
    cbn in Hg |- *; run_monad; by rewrite Hg.
Qed.

(** C1, on the code: the object registered for the menu entry is used for
    two calls of [callback] on the same cluster.  Both calls return, and
    the first leaves the dictionary empty but the shift at 1, not at the -1
    of [__init__].  So the form values built from the same cluster differ:
    the first file goes to medium 0 in the first call, to medium 2 in the
    second; and the two pages written differ. *)
Theorem callback_twice_differs :
  let w0 := new_AddClusterAsRelease example_config in
  let r1 := callback [Picard.OCluster example_cluster] w0 in
  let r2 := callback [Picard.OCluster example_cluster] r1.2 in
  r1.1 = Ok tt /\ r2.1 = Ok tt /\
  form_values r1.2 = [] /\ discnumber_shift w0 = -1 /\ discnumber_shift r1.2 = 1 /\
  form_values (set_form_values example_cluster w0).2 =
    [("artist_credit.names.0.artist.name", "A"); ("name", "Alb");
     ("mediums.0.track.0.name", "One"); ("mediums.0.track.0.length", "1000");
     ("mediums.0.track.1.name", "Two");
     ("mediums.0.track.1.artist_credit.names.0.name", "B");
     ("mediums.0.track.1.length", "2000")] /\
  form_values (set_form_values example_cluster r1.2).2 =
    [("artist_credit.names.0.artist.name", "A"); ("name", "Alb");
     ("mediums.2.track.0.name", "One"); ("mediums.2.track.0.length", "1000");
     ("mediums.0.track.1.name", "Two");
     ("mediums.0.track.1.artist_credit.names.0.name", "B");
     ("mediums.0.track.1.length", "2000")] /\
  (exists page1 page2,
     (tempfiles r2.2).*2 = [page1; page2] /\ page1 ≠ page2).
Proof.
  cbv zeta. repeat (split; [vm_compute; reflexivity|]).
  eexists _, _. split; [vm_compute; reflexivity|].
  intros H. vm_compute in H. discriminate H.
Qed.

(** ** More on the code *)

(** *** Runs of [extract_discnumber] *)

Lemma extract_discnumber_log (metadata : Picard.Metadata) (w : World) :
  log (extract_discnumber metadata w).2
  = log w ++ discnumber_failures [metadata].
Proof.
  rewrite extract_discnumber_run. cbn [discnumber_failures].
  destruct (Py.int _); cbn; [by rewrite app_nil_r|done].
Qed.

Lemma discnumber_failures_app (l l' : list Picard.Metadata) :
  discnumber_failures (l ++ l') = discnumber_failures l ++ discnumber_failures l'.
Proof.
  induction l as [|metadata l IH]; [done|]. cbn.
  destruct (Py.int _); [done|]. by rewrite IH.
Qed.

(** A run returns the numbers of [medium_numbers] and moves the shift and
    the log only. *)
Lemma extract_discnumbers_run (l : list Picard.Metadata) (w : World) :
  extract_discnumbers l w =
  (Ok (medium_numbers l (discnumber_shift w)),
   with_log (log w ++ discnumber_failures l)
            (with_discnumber_shift (fold_left shift_after l (discnumber_shift w)) w)).
Proof.
  revert w. induction l as [|metadata l IH]; intros w.
  - cbn. rewrite app_nil_r. by destruct w.
  - cbn [extract_discnumbers medium_numbers fold_left]. rewrite bind_run.
    change (metadata :: l) with ([metadata] ++ l). rewrite discnumber_failures_app.
    destruct (extract_discnumber_medium metadata w) as [Hm _].
    pose proof (extract_discnumber_shift metadata w) as Hs.
    pose proof (extract_discnumber_log metadata w) as Hl.
    rewrite Hm. rewrite bind_run, IH. rewrite Hs, Hl.
    run_monad. f_equal.
    rewrite extract_discnumber_run. unfold with_log, with_discnumber_shift.
    rewrite <- app_assoc. by destruct (Py.int _).
Qed.

Lemma shift_after_invariant (shift : Z) (metadata : Picard.Metadata) :
  -1 <= shift ->
  shift_after shift metadata =
  match Py.int (discnumber_text metadata) with
  | Some m => Z.max shift (- m)
  | None => shift
  end.
Proof.
  intros Hs. unfold shift_after. destruct (Py.int _) as [m|]; [|done].
  destruct (Z.leb_spec m 0); lia.
Qed.

Lemma medium_number_invariant (shift : Z) (metadata : Picard.Metadata) :
  -1 <= shift ->
  medium_number shift metadata =
  match Py.int (discnumber_text metadata) with
  | Some m => Z.max (m + shift) 0
  | None => 0
  end.
Proof.
  intros Hs. unfold medium_number, shift_after. destruct (Py.int _) as [m|]; [|done].
  destruct (Z.leb_spec m 0); lia.
Qed.

(** X1: as long as the shift is at least -1 (it starts there and never
    goes down), the test [m <= 0] in [extract_discnumber] makes no
    difference: for a disc number that reads as [m] the call returns
    [max (m + shift) 0] and leaves the shift at [max shift (-m)]. *)
Theorem extract_discnumber_clamped (metadata : Picard.Metadata) (w : World) (m : Z) :
  -1 <= discnumber_shift w ->
  Py.int (Py.split1_head "/" (Picard.get metadata "discnumber" "1")) = Some m ->
  (extract_discnumber metadata w).1 = Ok (Z.max (m + discnumber_shift w) 0) /\
  discnumber_shift (extract_discnumber metadata w).2 = Z.max (discnumber_shift w) (- m).
Proof.
  intros Hs Hm. split.
  - destruct (extract_discnumber_medium metadata w) as [-> _]. cbn [fst].
    rewrite medium_number_invariant by done. unfold discnumber_text. by rewrite Hm.
  - rewrite extract_discnumber_shift, shift_after_invariant by done.
    unfold discnumber_text. by rewrite Hm.
Qed.

Lemma extract_discnumber_clamped_witness :
  (extract_discnumber (tagged [("discnumber", "-3/5")] 0)
                      (new_AddClusterAsRelease example_config)).1 = Ok 0 /\
  discnumber_shift (extract_discnumber (tagged [("discnumber", "-3/5")] 0)
                                       (new_AddClusterAsRelease example_config)).2 = 3.
Proof.
  apply (extract_discnumber_clamped (tagged [("discnumber", "-3/5")] 0)
           (new_AddClusterAsRelease example_config) (-3)).
  - cbn. lia.
  - reflexivity.
Defined.

(** X2: read in the same state (shift at least -1), a larger disc number
    never gets a smaller medium number. *)
Theorem extract_discnumber_order (a b : Picard.Metadata) (w : World) (m n : Z) :
  -1 <= discnumber_shift w ->
  Py.int (Py.split1_head "/" (Picard.get a "discnumber" "1")) = Some m ->
  Py.int (Py.split1_head "/" (Picard.get b "discnumber" "1")) = Some n ->
  m <= n ->
  exists r r',
    (extract_discnumber a w).1 = Ok r /\ (extract_discnumber b w).1 = Ok r' /\ r <= r'.
Proof.
  intros Hs Ha Hb Hmn.
  destruct (extract_discnumber_medium a w) as [Hra _].
  destruct (extract_discnumber_medium b w) as [Hrb _].
  rewrite Hra, Hrb. eexists _, _. split; [done|]. split; [done|].
  rewrite !medium_number_invariant by done. unfold discnumber_text.
  rewrite Ha, Hb. lia.
Qed.

Lemma extract_discnumber_order_witness :
  exists r r',
    (extract_discnumber (tagged [("discnumber", "-2")] 0)
                        (new_AddClusterAsRelease example_config)).1 = Ok r /\
    (extract_discnumber (tagged [("discnumber", "1/2")] 0)
                        (new_AddClusterAsRelease example_config)).1 = Ok r' /\
    r <= r'.
Proof.
  apply (extract_discnumber_order (tagged [("discnumber", "-2")] 0)
           (tagged [("discnumber", "1/2")] 0)
           (new_AddClusterAsRelease example_config) (-2) 1).
  - cbn. lia.
  - reflexivity.
  - reflexivity.
  - lia.
Defined.

Lemma world_ext (w w' : World) :
  form_values w = form_values w' ->
  discnumber_shift w = discnumber_shift w' ->
  config w = config w' ->
  log w = log w' ->
  tempfiles w = tempfiles w' ->
  browser w = browser w' ->
  w = w'.
Proof. destruct w, w'; cbn; intros; by subst. Qed.

(** Read the fields of an updated world. *)
Ltac world_fields :=
  cbn [form_values discnumber_shift config log tempfiles browser
       with_form_values with_discnumber_shift with_log with_tempfiles with_browser
       fst snd].

Lemma extract_discnumber_world (metadata : Picard.Metadata) (w : World) :
  (extract_discnumber metadata w).2
  = with_log (log w ++ discnumber_failures [metadata])
             (with_discnumber_shift (shift_after (discnumber_shift w) metadata) w).
Proof.
  apply world_ext; cbn [with_log with_discnumber_shift form_values discnumber_shift
                        config log tempfiles browser];
    try (rewrite extract_discnumber_run; by destruct (Py.int _)).
  - apply extract_discnumber_shift.
  - apply extract_discnumber_log.
Qed.

Lemma medium_numbers_app (l l' : list Picard.Metadata) (shift : Z) :
  medium_numbers (l ++ l') shift
  = medium_numbers l shift ++ medium_numbers l' (fold_left shift_after l shift).
Proof.
  revert shift. induction l as [|metadata l IH]; intros shift; [done|].
  cbn. by rewrite IH.
Qed.

Lemma medium_numbers_length (l : list Picard.Metadata) (shift : Z) :
  List.length (medium_numbers l shift) = List.length l.
Proof.
  revert shift. induction l as [|metadata l IH]; intros shift; [done|].
  cbn. by rewrite IH.
Qed.

Lemma fold_shift_after_mono (l : list Picard.Metadata) (s s' : Z) :
  s <= s' -> fold_left shift_after l s <= fold_left shift_after l s'.
Proof.
  revert s s'. induction l as [|metadata l IH]; intros s s' Hs; [done|].
  cbn. apply IH. unfold shift_after. destruct (Py.int _) as [m|]; [|done].
  destruct (m <=? 0); lia.
Qed.

(** The shift a run leaves covers every disc number at most 0 of the run. *)
Lemma fold_shift_after_covers (l : list Picard.Metadata) (s : Z) (metadata : Picard.Metadata) (m : Z) :
  metadata ∈ l ->
  Py.int (discnumber_text metadata) = Some m ->
  m <= 0 ->
  - m <= fold_left shift_after l s.
Proof.
  intros Hin Hm Hle. revert s. induction Hin as [metadata l|metadata md' l Hin IH]; intros s.
  - cbn. etrans; [|apply fold_shift_after_ge].
    unfold shift_after. rewrite Hm. destruct (Z.leb_spec m 0); lia.
  - cbn. by apply IH.
Qed.

(** The shift a run leaves is the shift it started with or the negation of
    a disc number at most 0 of the run. *)
Lemma fold_shift_after_attained (l : list Picard.Metadata) (s : Z) :
  fold_left shift_after l s = s \/
  exists metadata m,
    metadata ∈ l /\ Py.int (discnumber_text metadata) = Some m /\ m <= 0 /\
    fold_left shift_after l s = - m.
Proof.
  revert s. induction l as [|metadata l IH]; intros s; [by left|].
  cbn [fold_left].
  destruct (IH (shift_after s metadata)) as [Heq|(md & m & Hin & Hm & Hle & Heq)].
  - rewrite Heq. unfold shift_after.
    destruct (Py.int (discnumber_text metadata)) as [m|] eqn:Hm; [|by left].
    destruct (Z.leb_spec m 0) as [Hle|]; [|by left].
    destruct (Z.max_spec s (0 - m)) as [[_ ->]|[_ ->]]; [|by left].
    right. exists metadata, m. split_and!; [apply list_elem_of_here|done|done|lia].
  - right. exists md, m. split_and!; [by apply list_elem_of_further|done|done|done].
Qed.

(** A run that has been made once leaves a shift that making it again
    does not move. *)
Lemma fold_shift_after_stable (l : list Picard.Metadata) (s : Z) :
  fold_left shift_after l (fold_left shift_after l s) = fold_left shift_after l s.
Proof.
  assert (Hstable : forall l' s',
             (forall metadata m, metadata ∈ l' -> Py.int (discnumber_text metadata) = Some m ->
                                 m <= 0 -> - m <= s') ->
             fold_left shift_after l' s' = s').
  { induction l' as [|metadata l' IH]; intros s' Hcov; [done|].
    cbn [fold_left].
    assert (shift_after s' metadata = s') as ->.
    { unfold shift_after. destruct (Py.int (discnumber_text metadata)) as [m|] eqn:Hm; [|done].
      destruct (Z.leb_spec m 0) as [Hle|]; [|done].
      specialize (Hcov metadata m (list_elem_of_here _ _) Hm Hle). lia. }
    apply IH. intros md m Hin. apply Hcov. by apply list_elem_of_further. }
  apply Hstable. intros metadata m Hin Hm Hle.
  by apply (fold_shift_after_covers l s metadata m).
Qed.

(** X3: on an object whose shift is still -1, a run over tags whose disc
    numbers all read as numbers above 0, or as no number at all, returns
    the disc number minus one for the former and 0 for the latter, and
    leaves the shift at -1. *)
Theorem extract_discnumbers_positive (l : list Picard.Metadata) (w : World) :
  discnumber_shift w = -1 ->
  Forall (fun metadata =>
            match Py.int (discnumber_text metadata) with
            | Some m => 0 < m
            | None => True
            end) l ->
  (extract_discnumbers l w).1 =
    Ok ((fun metadata =>
           match Py.int (discnumber_text metadata) with
           | Some m => m - 1
           | None => 0
           end) <$> l) /\
  discnumber_shift (extract_discnumbers l w).2 = -1.
Proof.
  intros Hw Hl. rewrite extract_discnumbers_run. cbn [fst snd]. rewrite Hw.
  cbn [discnumber_shift with_log with_discnumber_shift].
  induction Hl as [|metadata l Hm Hl IH]; [done|].
  cbn [medium_numbers fold_left fmap list_fmap].
  assert (shift_after (-1) metadata = -1) as Hs.
  { unfold shift_after. destruct (Py.int _) as [m|]; [|done].
    destruct (Z.leb_spec m 0); [lia|done]. }
  rewrite Hs. destruct IH as [[= IH1] IH2]. split; [|done].
  f_equal. f_equal; [|done].
  unfold medium_number. rewrite Hs. destruct (Py.int _); [lia|done].
Qed.

Lemma extract_discnumbers_positive_witness :
  (extract_discnumbers [tagged [("discnumber", "1/2")] 0; tagged [("discnumber", "x")] 0;
                        tagged [("discnumber", "2/2")] 0]
                       (new_AddClusterAsRelease example_config)).1 = Ok [0; 0; 1] /\
  discnumber_shift
    (extract_discnumbers [tagged [("discnumber", "1/2")] 0; tagged [("discnumber", "x")] 0;
                          tagged [("discnumber", "2/2")] 0]
                         (new_AddClusterAsRelease example_config)).2 = -1.
Proof.
  apply (extract_discnumbers_positive
           [tagged [("discnumber", "1/2")] 0; tagged [("discnumber", "x")] 0;
            tagged [("discnumber", "2/2")] 0]
           (new_AddClusterAsRelease example_config)).
  - reflexivity.
  - repeat constructor.
Defined.

(** X4: numbers already returned are not revised.  When two tag sets with
    the same disc number above 0 are read in one run, and a tag set read
    between them has a disc number whose negation is above the shift the
    run started with, the second gets a larger medium number than the
    first. *)
Theorem extract_discnumbers_not_revised
    (a b : Picard.Metadata) (mid : list Picard.Metadata) (w : World) (m : Z) :
  -1 <= discnumber_shift w ->
  Py.int (discnumber_text a) = Some m ->
  Py.int (discnumber_text b) = Some m ->
  0 < m ->
  Exists (fun metadata =>
            exists k, Py.int (discnumber_text metadata) = Some k /\ discnumber_shift w < - k) mid ->
  exists ra rs rb,
    (extract_discnumbers (a :: mid ++ [b]) w).1 = Ok (ra :: rs ++ [rb]) /\
    List.length rs = List.length mid /\
    ra < rb.
Proof.
  intros Hw Ha Hb Hm Hmid. rewrite extract_discnumbers_run. cbn [fst medium_numbers].
  rewrite medium_numbers_app. cbn [medium_numbers].
  eexists _, _, _. split; [done|]. split; [apply medium_numbers_length|].
  assert (shift_after (discnumber_shift w) a = discnumber_shift w) as Hsa.
  { unfold shift_after. rewrite Ha. destruct (Z.leb_spec m 0); [lia|done]. }
  rewrite Hsa. set (s2 := fold_left shift_after mid (discnumber_shift w)).
  assert (discnumber_shift w < s2) as Hlt.
  { apply Exists_exists in Hmid as (md & Hin & k & Hk & Hlt).
    pose proof (fold_shift_after_covers mid (discnumber_shift w) md k Hin Hk). lia. }
  unfold medium_number, shift_after. rewrite Ha, Hb.
  destruct (Z.leb_spec m 0); lia.
Qed.

Lemma extract_discnumbers_not_revised_witness :
  exists ra rs rb,
    (extract_discnumbers
       (tagged [("discnumber", "1")] 0
        :: [tagged [("discnumber", "0")] 0] ++ [tagged [("discnumber", "1")] 0])
       (new_AddClusterAsRelease example_config)).1 = Ok (ra :: rs ++ [rb]) /\
    List.length rs = 1%nat /\
    ra < rb.
Proof.
  apply (extract_discnumbers_not_revised
           (tagged [("discnumber", "1")] 0) (tagged [("discnumber", "1")] 0)
           [tagged [("discnumber", "0")] 0]
           (new_AddClusterAsRelease example_config) 1).
  - cbn. lia.
  - reflexivity.
  - reflexivity.
  - lia.
  - constructor. exists 0. split; [reflexivity|]. cbn. lia.
Defined.

(** X5: the shift a run leaves is the least number that is at least the
    shift it started with and at least the negation of every disc number
    at most 0 in the run: it is not below the start, it covers each such
    disc number, and it is the start or the negation of one of them. *)
Theorem discnumber_shift_final (l : list Picard.Metadata) (w : World) :
  let s' := discnumber_shift (extract_discnumbers l w).2 in
  discnumber_shift w <= s' /\
  (forall metadata m,
     metadata ∈ l -> Py.int (discnumber_text metadata) = Some m -> m <= 0 -> - m <= s') /\
  (s' = discnumber_shift w \/
   exists metadata m,
     metadata ∈ l /\ Py.int (discnumber_text metadata) = Some m /\ m <= 0 /\ s' = - m).
Proof.
  cbv zeta. rewrite extract_discnumbers_shift. split; [apply fold_shift_after_ge|].
  split; [intros metadata m; apply fold_shift_after_covers|].
  apply fold_shift_after_attained.
Qed.

(** *** The whole of [set_form_values] *)

Lemma set_track_values_world (cluster : Picard.Cluster) (i : nat) (file : Picard.File) (w : World) :
  set_track_values cluster i file w =
  (Ok tt,
   with_form_values
     (setitems (form_values w)
               (track_items cluster
                            (medium_number (discnumber_shift w) (Picard.file_metadata file))
                            (track_number i file) file))
     (with_log (log w ++ discnumber_failures [Picard.file_metadata file])
               (with_discnumber_shift
                  (shift_after (discnumber_shift w) (Picard.file_metadata file)) w))).
Proof. by rewrite set_track_values_run, extract_discnumber_world. Qed.

Lemma track_loop_world (cluster : Picard.Cluster) (l : list Picard.File) (i : nat) (w : World) :
  for_enumerate i l (set_track_values cluster) w =
  (Ok tt,
   with_form_values
     (setitems (form_values w) (track_writes cluster i l (discnumber_shift w)))
     (with_log (log w ++ discnumber_failures (Picard.file_metadata <$> l))
               (with_discnumber_shift
                  (fold_left shift_after (Picard.file_metadata <$> l) (discnumber_shift w)) w))).
Proof.
  revert i w. induction l as [|file l IH]; intros i w.
  - cbn. rewrite app_nil_r. by destruct w.
  - cbn [for_enumerate]. rewrite bind_run, set_track_values_world, IH.
    f_equal. apply world_ext; world_fields; try done.
    + cbn [track_writes]. by rewrite setitems_app.
    + rewrite <- app_assoc. f_equal. cbn [fmap list_fmap discnumber_failures].
      destruct (Py.int (discnumber_text (Picard.file_metadata file))); done.
Qed.

(** All that [set_form_values] does: it returns, stores the pairs of
    [form_writes], moves the shift as the disc numbers of the files say,
    and logs the disc numbers that are no integers. *)
Lemma set_form_values_world (cluster : Picard.Cluster) (w : World) :
  set_form_values cluster w =
  (Ok tt,
   with_form_values
     (setitems (form_values w) (form_writes cluster (discnumber_shift w)))
     (with_log (log w ++ discnumber_failures (Picard.file_metadata <$> Picard.files cluster))
               (with_discnumber_shift
                  (fold_left shift_after (Picard.file_metadata <$> Picard.files cluster)
                             (discnumber_shift w)) w))).
Proof.
  rewrite set_form_values_loop, track_loop_world. reflexivity.
Qed.

(** X6: [set_form_values] writes one log record for each file whose disc
    number is no integer, in the order of the files, each with the file's
    name and the text that failed; nothing else is logged, a track number
    that is no integer in particular is not. *)
Theorem set_form_values_log (cluster : Picard.Cluster) (w : World) :
  log (set_form_values cluster w).2
  = log w ++
    ((fun file => {| log_format := discnumber_log_format;
                     log_filename := Picard.getitem (Picard.file_metadata file) "~filename";
                     log_error :=
                       ValueError (Py.split1_head "/"
                                     (Picard.get (Picard.file_metadata file) "discnumber" "1")) |})
       <$> filter (fun file =>
                     Py.int (Py.split1_head "/"
                               (Picard.get (Picard.file_metadata file) "discnumber" "1")) = None)
                  (Picard.files cluster)).
Proof.
  rewrite set_form_values_world. cbn [snd log with_form_values with_log]. f_equal.
  induction (Picard.files cluster) as [|file l IH]; [done|].
  cbn [fmap list_fmap discnumber_failures]. fold (discnumber_text (Picard.file_metadata file)).
  destruct (Py.int (discnumber_text (Picard.file_metadata file))) eqn:Hm.
  - rewrite filter_cons_False; [apply IH|]. unfold discnumber_text in Hm. by rewrite Hm.
  - rewrite filter_cons_True by done. cbn. f_equal. apply IH.
Qed.

(** *** Field names, again *)

Lemma split1_head_app (sep : ascii) (a r : string) :
  Py.split1_head sep (a +:+ String sep r) = Py.split1_head sep a.
Proof.
  induction a as [|c a IH]; simpl.
  - by rewrite Ascii.eqb_refl.
  - destruct (Ascii.eqb c sep); [done|]. by rewrite IH.
Qed.

Lemma string_of_uint_no_dot (d : Decimal.uint) :
  Py.split1_head "." (NilEmpty.string_of_uint d) = NilEmpty.string_of_uint d.
Proof. induction d; simpl; by rewrite ?IHd. Qed.

(** The decimal text of an integer holds no dot. *)
Lemma str_no_dot (z : Z) : Py.split1_head "." (Py.str z) = Py.str z.
Proof.
  unfold Py.str, NilZero.string_of_int, NilZero.string_of_uint.
  destruct (Z.to_int z) as [d|d]; destruct d; simpl; try done;
    by rewrite string_of_uint_no_dot.
Qed.

(** Different integers have different decimal texts. *)
Lemma str_inj (z z' : Z) : Py.str z = Py.str z' -> z = z'.
Proof.
  unfold Py.str. intros H. apply DecimalZ.to_int_inj.
  assert (Hnn : forall n, Z.to_int n ≠ Decimal.Pos Decimal.Nil /\ Z.to_int n ≠ Decimal.Neg Decimal.Nil).
  { intros [|p|p]; cbn; split; try done; intros [= Hp];
      by apply DecimalPos.Unsigned.to_uint_nonnil in Hp. }
  destruct (Hnn z) as [Hz1 Hz2]. destruct (Hnn z') as [Hz1' Hz2'].
  pose proof (NilZero.isi _ Hz1 Hz2) as Hi. pose proof (NilZero.isi _ Hz1' Hz2') as Hi'.
  rewrite H in Hi. congruence.
Qed.

Lemma cut_at_dot (z z' : Z) (r r' : string) :
  Py.str z +:+ String "." r = Py.str z' +:+ String "." r' -> z = z' /\ r = r'.
Proof.
  intros H. assert (z = z') as <-.
  { apply str_inj. rewrite <- (str_no_dot z), <- (str_no_dot z').
    rewrite <- (split1_head_app "." (Py.str z) r), <- (split1_head_app "." (Py.str z') r').
    by rewrite H. }
  split; [done|]. apply append_inj_r in H. by injection H.
Qed.

(** X7: a track field name determines its medium number, its track index
    and its last part: two names are equal only if all three are.  So two
    rounds of the loop write to the same key only for the same medium
    number and the same track index. *)
Theorem track_field_injective (m i m' i' : Z) (n n' : string) :
  track_field m i n = track_field m' i' n' <-> m = m' /\ i = i' /\ n = n'.
Proof.
  split; [|by intros (-> & -> & ->)].
  unfold track_field. intros H. apply append_inj_r in H.
  change (".track." +:+ ?x) with (String "." ("track." +:+ x)) in H.
  apply cut_at_dot in H as [-> H]. apply append_inj_r in H.
  change ("." +:+ ?x) with (String "." x) in H.
  by apply cut_at_dot in H as [-> ->].
Qed.

(** *** What the form values of the cluster action look like *)

Lemma first_occurrences_elem (l : list string) (k : string) :
  k ∈ first_occurrences l -> k ∈ l.
Proof.
  revert k. induction l as [|k0 l IH]; intros k; cbn; [done|].
  rewrite !elem_of_cons, list_elem_of_filter. intros [->|[_ Hk]]; [by left|].
  right. by apply IH.
Qed.

Lemma first_occurrences_length (l : list string) :
  (List.length (first_occurrences l) <= List.length l)%nat.
Proof.
  induction l as [|k l IH]; cbn; [done|].
  pose proof (length_filter (fun k' => k' ≠ k) (first_occurrences l)). lia.
Qed.

Lemma first_occurrences_NoDup (l : list string) : NoDup (first_occurrences l).
Proof.
  induction l as [|k l IH]; cbn; [constructor|].
  constructor; [|by apply NoDup_filter].
  rewrite list_elem_of_filter. by intros [? _].
Qed.

Lemma track_items_length (cluster : Picard.Cluster) (m i : Z) (file : Picard.File) :
  (List.length (track_items cluster m i file) <= 3)%nat.
Proof. unfold track_items. case_bool_decide; cbn; lia. Qed.

Lemma track_writes_length (cluster : Picard.Cluster) (l : list Picard.File) (i : nat) (shift : Z) :
  (List.length (track_writes cluster i l shift) <= 3 * List.length l)%nat.
Proof.
  revert i shift. induction l as [|file l IH]; intros i shift; cbn [track_writes List.length]; [done|].
  rewrite length_app.
  pose proof (track_items_length cluster (medium_number shift (Picard.file_metadata file))
                (track_number i file) file).
  specialize (IH (S i) (shift_after shift (Picard.file_metadata file))). lia.
Qed.

Lemma medium_number_nonneg (shift : Z) (metadata : Picard.Metadata) :
  -1 <= shift -> 0 <= medium_number shift metadata.
Proof.
  intros Hs. rewrite medium_number_invariant by done. destruct (Py.int _); lia.
Qed.

Lemma track_items_shape (cluster : Picard.Cluster) (m i : Z) (file : Picard.File) :
  Forall (fun kv => exists n,
            kv.1 = track_field m i n /\
            n ∈ ["name"; "artist_credit.names.0.name"; "length"])
         (track_items cluster m i file).
Proof.
  unfold track_items. case_bool_decide; cbn; repeat constructor;
    eexists; (split; [reflexivity|]); rewrite !elem_of_cons; auto.
Qed.

Lemma track_writes_shape (cluster : Picard.Cluster) (l : list Picard.File) (i : nat) (shift : Z) :
  -1 <= shift ->
  Forall (fun kv => exists m j n,
            kv.1 = track_field m j n /\ 0 <= m /\
            n ∈ ["name"; "artist_credit.names.0.name"; "length"])
         (track_writes cluster i l shift).
Proof.
  revert i shift. induction l as [|file l IH]; intros i shift Hs;
    cbn [track_writes]; [constructor|].
  apply Forall_app_2.
  - eapply Forall_impl; [apply track_items_shape|]. cbn.
    intros kv (n & Hk & Hn). eexists _, _, n. split; [done|]. split; [|done].
    by apply medium_number_nonneg.
  - apply IH. pose proof (shift_after_ge shift (Picard.file_metadata file)). lia.
Qed.

(** From an empty dictionary, the two release fields come first and the
    track fields follow. *)
Lemma set_form_values_from_empty (cluster : Picard.Cluster) (w : World) :
  form_values w = [] ->
  form_values (set_form_values cluster w).2
  = release_items cluster
    ++ setitems [] (track_writes cluster 0 (Picard.files cluster) (discnumber_shift w)).
Proof.
  intros Hw. rewrite set_form_values_world. world_fields. rewrite Hw.
  unfold form_writes. rewrite setitems_app.
  change (setitems [] (release_items cluster)) with (release_items cluster ++ []).
  rewrite setitems_app_l; [done|].
  eapply Forall_impl; [apply track_writes_keys|].
  intros [k v] (m & j & n & Hk). cbn in Hk |- *. subst k.
  destruct (track_field_not_release m j n) as [H1 H2].
  rewrite !not_elem_of_cons. split; [done|]. split; [done|]. apply not_elem_of_nil.
Qed.

(** X8: in the form values the cluster action builds on an object whose
    shift is at least -1, every key is one of the two release fields or a
    track field [mediums.m.track.i.n] whose medium number [m] is at least
    0 and whose last part [n] is [name], [artist_credit.names.0.name] or
    [length]. *)
Theorem set_form_values_keys (cluster : Picard.Cluster) (w : World) :
  form_values w = [] ->
  -1 <= discnumber_shift w ->
  Forall (fun k =>
            k = "artist_credit.names.0.artist.name"%string \/ k = "name"%string \/
            exists m i n,
              k = track_field m i n /\ 0 <= m /\
              n ∈ ["name"; "artist_credit.names.0.name"; "length"])
         (Py.keys (form_values (set_form_values cluster w).2)).
Proof.
  intros Hw Hs. rewrite set_form_values_from_empty by done.
  unfold Py.keys. rewrite fmap_app. apply Forall_app_2.
  - cbn. constructor; [by left|]. constructor; [by right; left|]. constructor.
  - fold (Py.keys (setitems [] (track_writes cluster 0 (Picard.files cluster) (discnumber_shift w)))).
    rewrite keys_setitems_nil. apply Forall_forall. intros k Hk%first_occurrences_elem.
    apply list_elem_of_fmap in Hk as ([k' v] & -> & Hkv).
    pose proof (track_writes_shape cluster (Picard.files cluster) 0 (discnumber_shift w) Hs) as Hall.
    rewrite Forall_forall in Hall. specialize (Hall _ Hkv). cbn in Hall |- *. auto.
Qed.

Lemma set_form_values_keys_witness :
  Forall (fun k =>
            k = "artist_credit.names.0.artist.name"%string \/ k = "name"%string \/
            exists m i n,
              k = track_field m i n /\ 0 <= m /\
              n ∈ ["name"; "artist_credit.names.0.name"; "length"])
         (Py.keys (form_values
                     (set_form_values example_cluster
                                      (new_AddClusterAsRelease example_config)).2)).
Proof.
  apply (set_form_values_keys example_cluster (new_AddClusterAsRelease example_config)).
  - reflexivity.
  - cbn. lia.
Defined.

(** X9: from an empty dictionary the cluster action builds form values
    without repeated keys, with at least the 2 release fields and at most
    3 more fields for each file of the cluster. *)
Theorem set_form_values_size (cluster : Picard.Cluster) (w : World) :
  form_values w = [] ->
  NoDup (Py.keys (form_values (set_form_values cluster w).2)) /\
  (2 <= List.length (form_values (set_form_values cluster w).2)
     <= 2 + 3 * List.length (Picard.files cluster))%nat.
Proof.
  intros Hw. split.
  - rewrite set_form_values_world. world_fields. rewrite Hw, keys_setitems_nil.
    apply first_occurrences_NoDup.
  - rewrite set_form_values_from_empty by done. rewrite length_app.
    cbn [release_items List.length].
    set (tracks := track_writes _ _ _ _).
    assert (List.length (setitems [] tracks) <= 3 * List.length (Picard.files cluster))%nat; [|lia].
    rewrite <- (length_fmap fst). fold (Py.keys (setitems [] tracks)).
    rewrite keys_setitems_nil.
    etrans; [apply first_occurrences_length|]. rewrite length_fmap.
    apply track_writes_length.
Qed.

Lemma set_form_values_size_witness :
  NoDup (Py.keys (form_values
                    (set_form_values example_cluster
                                     (new_AddClusterAsRelease example_config)).2)) /\
  (2 <= List.length (form_values
                       (set_form_values example_cluster
                                        (new_AddClusterAsRelease example_config)).2)
     <= 2 + 3 * 2)%nat.
Proof.
  apply (set_form_values_size example_cluster (new_AddClusterAsRelease example_config)).
  reflexivity.
Defined.

(** *** Escaping and the page *)

Lemma append_assoc (a b c : string) : (a +:+ b) +:+ c = a +:+ (b +:+ c).
Proof.
  induction a as [|x a IH]; [done|].
  change (String x ((a +:+ b) +:+ c) = String x (a +:+ (b +:+ c))). by f_equal.
Qed.

Lemma split1_head_id (sep : ascii) (s : string) :
  Py.split1_head sep s = s <-> sep ∉ list_ascii_of_string s.
Proof.
  induction s as [|c s IH]; simpl.
  - split; [intros _; apply not_elem_of_nil|done].
  - rewrite not_elem_of_cons. destruct (Ascii.eqb_spec c sep) as [->|Hne].
    + split; [done|]. by intros [? _].
    + split.
      * intros [= H]. split; [done|]. by apply IH.
      * intros [_ H]. f_equal. by apply IH.
Qed.

Lemma cut_at (sep : ascii) (a a' r r' : string) :
  Py.split1_head sep a = a ->
  Py.split1_head sep a' = a' ->
  a +:+ String sep r = a' +:+ String sep r' ->
  a = a' /\ r = r'.
Proof.
  intros Ha Ha' H. assert (a = a') as <-.
  { rewrite <- Ha, <- Ha'.
    rewrite <- (split1_head_app sep a r), <- (split1_head_app sep a' r'). by rewrite H. }
  split; [done|]. apply append_inj_r in H. by injection H.
Qed.

Lemma esc_cons (c : ascii) (s : string) :
  esc (String c s) =
  if Ascii.eqb c "&" then "&amp;" +:+ esc s
  else if Ascii.eqb c "034" then "&quot;" +:+ esc s
  else String c (esc s).
Proof.
  cbn [esc]. unfold HTML_ATTR_ESCAPE.
  destruct (Ascii.eqb c "&"); [done|]. by destruct (Ascii.eqb c "034").
Qed.

Lemma esc_no_quote (s : string) : Py.split1_head "034" (esc s) = esc s.
Proof.
  induction s as [|c s IH]; [done|]. rewrite esc_cons.
  destruct (Ascii.eqb_spec c "&") as [->|Hamp];
    [lazy [String.append]; simpl; by rewrite IH|].
  destruct (Ascii.eqb_spec c "034") as [->|Hq];
    [lazy [String.append]; simpl; by rewrite IH|].
  simpl. destruct (Ascii.eqb_spec c "034"); [done|]. by rewrite IH.
Qed.

(** X10: the text [esc] returns holds no double quote, so it cannot end
    the attribute it is written into. *)
Theorem esc_quote_free (s : string) :
  "034"%char ∉ list_ascii_of_string (esc s).
Proof. apply split1_head_id, esc_no_quote. Qed.

Lemma esc_injective (s t : string) : esc s = esc t -> s = t.
Proof.
  revert t. induction s as [|c s IH]; intros [|d t]; rewrite ?esc_cons.
  - done.
  - destruct (Ascii.eqb d "&"); [|destruct (Ascii.eqb d "034")];
      lazy [String.append esc]; done.
  - destruct (Ascii.eqb c "&"); [|destruct (Ascii.eqb c "034")];
      lazy [String.append esc]; done.
  - destruct (Ascii.eqb_spec c "&") as [->|Hc1]; [|destruct (Ascii.eqb_spec c "034") as [->|Hc2]];
      (destruct (Ascii.eqb_spec d "&") as [->|Hd1];
         [|destruct (Ascii.eqb_spec d "034") as [->|Hd2]]);
      lazy [String.append]; intros H; simplify_eq; f_equal; by apply IH.
Qed.

(** X11: [esc] loses nothing: different texts have different escaped
    texts. *)
Theorem esc_faithful (s t : string) : esc s = esc t <-> s = t.
Proof. split; [apply esc_injective|by intros ->]. Qed.

Lemma html_inputs_cons (k v : string) (d : Py.dict) :
  html_inputs ((k, v) :: d) =
  ("<input type=" +:+ dq +:+ "hidden" +:+ dq +:+ " name=" +:+ dq) +:+ esc k +:+
  String "034" (" value=" +:+ String "034" (esc v +:+
  String "034" (">" +:+ nl +:+ html_inputs d))).
Proof.
  cbn [html_inputs]. unfold HTML_INPUT.
  rewrite !append_assoc. reflexivity.
Qed.

Lemma html_inputs_injective (d d' : Py.dict) : html_inputs d = html_inputs d' -> d = d'.
Proof.
  revert d'. induction d as [|[k v] d IH]; intros [|[k' v'] d']; [done|done|done|].
  rewrite !html_inputs_cons. intros H.
  apply append_inj_r in H.
  apply cut_at in H as [Hk H]; [|apply esc_no_quote..].
  apply (append_inj_r " value=") in H. injection H as H.
  apply cut_at in H as [Hv H]; [|apply esc_no_quote..].
  do 2 apply append_inj_r in H.
  apply esc_injective in Hk, Hv. subst. f_equal. by apply IH.
Qed.

Lemma length_append (a b : string) :
  String.length (a +:+ b) = (String.length a + String.length b)%nat.
Proof.
  induction a as [|x a IH]; [done|].
  change (S (String.length (a +:+ b)) = S (String.length a + String.length b)). by rewrite IH.
Qed.

Lemma append_inj_l (a b c : string) : a +:+ c = b +:+ c -> a = b.
Proof.
  revert b. induction a as [|x a IH]; intros [|y b] H.
  - done.
  - apply (f_equal String.length) in H. rewrite !length_append in H. cbn in H. lia.
  - apply (f_equal String.length) in H. rewrite !length_append in H. cbn in H. lia.
  - change (String x (a +:+ c) = String y (b +:+ c)) in H. injection H as -> H.
    f_equal. by apply IH.
Qed.

(** X12: the page [generate_html_file] writes determines the form values:
    two dictionaries with the same hidden inputs, or with the same page
    for one name and address, have the same keys and values in the same
    order. *)
Theorem page_determines_form_values (d d' : Py.dict) :
  (html_inputs d = html_inputs d' <-> d = d') /\
  (forall name url,
     HTML_HEAD name url +:+ html_inputs d +:+ HTML_TAIL name
     = HTML_HEAD name url +:+ html_inputs d' +:+ HTML_TAIL name <-> d = d').
Proof.
  split; [split; [apply html_inputs_injective|by intros ->]|].
  intros name url. split; [|by intros ->].
  intros H. apply append_inj_r, append_inj_l in H. by apply html_inputs_injective.
Qed.

(** *** [callback], for any subclass *)

Lemma mbserver_url_run (path : string) (w : World) :
  mbserver_url path w = ((mbserver_url path w).1, w) /\
  exists url, (mbserver_url path w).1 = Ok url.
Proof.
  destruct (mbserver_url_world path w) as [url Hurl]. rewrite Hurl. eauto.
Qed.

Lemma generate_html_file_run (name path url : string) (d : Py.dict) (w : World) :
  (mbserver_url path w).1 = Ok url ->
  generate_html_file name path d w =
  (Ok ("/tmp/tmp" +:+ Py.str (Z.of_nat (List.length (tempfiles w))) +:+ ".html"),
   with_tempfiles
     (tempfiles w ++ [("/tmp/tmp" +:+ Py.str (Z.of_nat (List.length (tempfiles w))) +:+ ".html",
                       html_page name url d)]) w).
Proof.
  intros Hurl. unfold generate_html_file. rewrite bind_run.
  destruct (mbserver_url_run path w) as [-> _]. by rewrite Hurl.
Qed.

(** A call on one accepted object whose [set_form_values] returns. *)
Lemma callback_run_success (self : AddObjectAsEntity.Subclass) (o : Picard.Obj)
    (w w1 : World) (url : string) :
  Picard.isinstance o (AddObjectAsEntity.objtype self) = true ->
  Picard.truth o = true ->
  AddObjectAsEntity.set_form_values self o w = (Ok tt, w1) ->
  (mbserver_url (AddObjectAsEntity.submit_path self) w1).1 = Ok url ->
  let fp := "/tmp/tmp" +:+ Py.str (Z.of_nat (List.length (tempfiles w1))) +:+ ".html" in
  AddObjectAsEntity.callback self [o] w =
  (Ok tt,
   with_form_values []
     (with_browser (browser w1 ++ ["file://" +:+ fp])
        (with_tempfiles
           (tempfiles w1 ++ [(fp, html_page (AddObjectAsEntity.NAME self) url (form_values w1))])
           w1))).
Proof.
  intros Hinst Htruth Hset Hurl. cbv zeta.
  unfold AddObjectAsEntity.callback. rewrite bind_run, check_object_run.
  rewrite Hinst. cbn [andb]. rewrite bool_decide_true by done.
  unfold try_finally, Checked_truth. rewrite Htruth.
  rewrite bind_run, Hset. rewrite bind_run. cbn [get_form_values].
  rewrite bind_run, (generate_html_file_run _ _ url) by done.
  reflexivity.
Qed.

Lemma callback_run_raise (self : AddObjectAsEntity.Subclass) (o : Picard.Obj)
    (w w1 : World) (e : exn) :
  Picard.isinstance o (AddObjectAsEntity.objtype self) = true ->
  Picard.truth o = true ->
  AddObjectAsEntity.set_form_values self o w = (Raise e, w1) ->
  AddObjectAsEntity.callback self [o] w = (Raise e, with_form_values [] w1).
Proof.
  intros Hinst Htruth Hset.
  unfold AddObjectAsEntity.callback. rewrite bind_run, check_object_run.
  rewrite Hinst. cbn [andb]. rewrite bool_decide_true by done.
  unfold try_finally, Checked_truth. rewrite Htruth.
  rewrite bind_run, Hset. reflexivity.
Qed.

(** The cluster action's [callback] is the inherited one. *)
Lemma callback_inherited (objs : list Picard.Obj) (w : World) :
  callback objs w = AddObjectAsEntity.callback AddClusterAsRelease_class objs w.
Proof.
  unfold callback, AddObjectAsEntity.callback.
  cbn [AddObjectAsEntity.objtype AddObjectAsEntity.NAME AddObjectAsEntity.submit_path
       AddObjectAsEntity.set_form_values AddClusterAsRelease_class].
  rewrite !bind_run, !check_object_run.
  destruct objs as [|o objs]; [done|].
  destruct o as [c|f|label]; cbn [Picard.isinstance objtype andb]; try done.
  case_bool_decide; done.
Qed.

Lemma mbserver_url_config (path : string) (w w' : World) :
  config w = config w' -> (mbserver_url path w).1 = (mbserver_url path w').1.
Proof.
  intros Hc. unfold mbserver_url. rewrite !bind_run. cbn [get_config]. rewrite Hc.
  destruct (_ || _); [done|].
  destruct (Picard.server_port (config w')) as [p|]; [|done]. by destruct (p =? 80).
Qed.

(** X13: for any subclass, a call of [callback] on a selection of one
    object that is an instance of [objtype], is true, and on which
    [set_form_values] returns: writes one page, made of the head, one
    hidden input for each form value that [set_form_values] left, in
    order, and the tail; opens that page in the browser; and leaves the
    form values empty.  Nothing else changes after [set_form_values]. *)
Theorem callback_success (self : AddObjectAsEntity.Subclass) (o : Picard.Obj)
    (w w1 : World) (url : string) :
  Picard.isinstance o (AddObjectAsEntity.objtype self) = true ->
  Picard.truth o = true ->
  AddObjectAsEntity.set_form_values self o w = (Ok tt, w1) ->
  (mbserver_url (AddObjectAsEntity.submit_path self) w1).1 = Ok url ->
  let fp := "/tmp/tmp" +:+ Py.str (Z.of_nat (List.length (tempfiles w1))) +:+ ".html" in
  AddObjectAsEntity.callback self [o] w =
  (Ok tt,
   with_form_values []
     (with_browser (browser w1 ++ ["file://" +:+ fp])
        (with_tempfiles
           (tempfiles w1 ++
            [(fp, HTML_HEAD (AddObjectAsEntity.NAME self) url +:+
                  html_inputs (form_values w1) +:+
                  HTML_TAIL (AddObjectAsEntity.NAME self))])
           w1))).
Proof. apply callback_run_success. Qed.

(** X14: when [set_form_values] raises, [callback] raises the same
    exception, writes no page and opens nothing, and the [finally] clause
    still empties the form values. *)
Theorem callback_finally_clears (self : AddObjectAsEntity.Subclass) (o : Picard.Obj)
    (w w1 : World) (e : exn) :
  Picard.isinstance o (AddObjectAsEntity.objtype self) = true ->
  Picard.truth o = true ->
  AddObjectAsEntity.set_form_values self o w = (Raise e, w1) ->
  AddObjectAsEntity.callback self [o] w = (Raise e, with_form_values [] w1).
Proof. apply callback_run_raise. Qed.

Lemma callback_finally_clears_witness :
  let self := {| AddObjectAsEntity.NAME := "Add File...";
                 AddObjectAsEntity.objtype := Picard.ClsFile;
                 AddObjectAsEntity.submit_path := "/";
                 AddObjectAsEntity.set_form_values :=
                   fun _ => add_form_value "name" "x";; raise AttributeError |} in
  let w := new_AddClusterAsRelease example_config in
  AddObjectAsEntity.callback self [Picard.OFile {| Picard.file_metadata := tagged [] 0 |}] w
  = (Raise AttributeError, w).
Proof.
  cbv zeta.
  exact (callback_finally_clears
           {| AddObjectAsEntity.NAME := "Add File...";
              AddObjectAsEntity.objtype := Picard.ClsFile;
              AddObjectAsEntity.submit_path := "/";
              AddObjectAsEntity.set_form_values :=
                fun _ => add_form_value "name" "x";; raise AttributeError |}
           (Picard.OFile {| Picard.file_metadata := tagged [] 0 |})
           (new_AddClusterAsRelease example_config)
           (with_form_values [("name", "x")] (new_AddClusterAsRelease example_config))
           AttributeError eq_refl eq_refl eq_refl).
Defined.

(** X15: a selection whose first object is no instance of [objtype], or
    that holds more than one object, is turned down: [callback] returns,
    empties the form values and does nothing else (no page, no browser,
    no log record, the shift as it was). *)
Theorem callback_rejected (self : AddObjectAsEntity.Subclass) (o : Picard.Obj)
    (objs : list Picard.Obj) (w : World) :
  Picard.isinstance o (AddObjectAsEntity.objtype self) = false \/ objs ≠ [] ->
  AddObjectAsEntity.callback self (o :: objs) w = (Ok tt, with_form_values [] w).
Proof.
  intros Hrej. unfold AddObjectAsEntity.callback. rewrite bind_run, check_object_run.
  assert (Picard.isinstance o (AddObjectAsEntity.objtype self) && bool_decide (objs = []) = false)
    as ->; [|done].
  destruct Hrej as [->|Hne]; [done|].
  rewrite bool_decide_false by done. apply andb_false_r.
Qed.

Lemma callback_rejected_witness :
  AddObjectAsEntity.callback AddClusterAsRelease_class
    [Picard.OCluster example_cluster; Picard.OCluster example_cluster]
    (with_form_values [("name", "x")] (new_AddClusterAsRelease example_config))
  = (Ok tt, new_AddClusterAsRelease example_config) /\
  AddObjectAsEntity.callback AddFileAsRelease_class
    [Picard.OCluster example_cluster]
    (new_AddClusterAsRelease example_config)
  = (Ok tt, new_AddClusterAsRelease example_config).
Proof.
  split.
  - apply (callback_rejected AddClusterAsRelease_class (Picard.OCluster example_cluster)
             [Picard.OCluster example_cluster]
             (with_form_values [("name", "x")] (new_AddClusterAsRelease example_config))).
    right. discriminate.
  - apply (callback_rejected AddFileAsRelease_class (Picard.OCluster example_cluster) []
             (new_AddClusterAsRelease example_config)).
    left. reflexivity.
Defined.

(** X16: on an empty selection [callback] raises [IndexError] from
    [check_object], which is called before the [try]: the [finally] clause
    does not run and the object is left as it was, form values
    included. *)
Theorem callback_empty_selection :
  (forall self w, AddObjectAsEntity.callback self [] w = (Raise IndexError, w)) /\
  (forall w, callback [] w = (Raise IndexError, w)).
Proof. split; reflexivity. Qed.

(** *** The three actions *)

Lemma AddFileAsRecording_run (file : Picard.File) (w : World) :
  AddFileAsRecording.set_form_values (Picard.OFile file) w =
  (Ok tt,
   with_form_values
     (setitems (form_values w)
        [("edit-recording.name", Picard.getitem (Picard.file_metadata file) "title");
         ("edit-recording.artist_credit.names.0.artist.name",
          Picard.getitem (Picard.file_metadata file) "artist");
         ("edit-recording.length", Picard.getitem (Picard.file_metadata file) "~length")])
     w).
Proof. reflexivity. Qed.

Lemma AddFileAsRelease_run (file : Picard.File) (w : World) :
  let metadata := Picard.file_metadata file in
  AddFileAsRelease.set_form_values (Picard.OFile file) w =
  (Ok tt,
   with_form_values
     (setitems (form_values w)
        [("artist_credit.names.0.artist.name",
          if str_truth (Picard.getitem metadata "albumartist")
          then Picard.getitem metadata "albumartist" else Picard.getitem metadata "artist");
         ("name",
          if str_truth (Picard.getitem metadata "album")
          then Picard.getitem metadata "album" else Picard.getitem metadata "title");
         ("mediums.0.track.0.name", Picard.getitem metadata "title");
         ("mediums.0.track.0.artist_credit.names.0.name", Picard.getitem metadata "artist");
         ("mediums.0.track.0.length", Py.str (Picard.length metadata))])
     w).
Proof.
  cbv zeta. unfold AddFileAsRelease.set_form_values. run_monad.
  destruct (str_truth (Picard.getitem (Picard.file_metadata file) "albumartist"));
    destruct (str_truth (Picard.getitem (Picard.file_metadata file) "album")); reflexivity.
Qed.

(** X17: the cluster action, end to end.  Called on a selection of one
    cluster with at least one file, on an object with empty form values,
    [callback] returns; it writes one page whose hidden inputs are the two
    release fields followed by the track fields, file after file; it opens
    that page; it leaves the form values empty, the log longer by the
    records of [set_form_values], and the shift where the disc numbers of
    the files moved it. *)
Theorem callback_cluster (cluster : Picard.Cluster) (w : World) (url : string) :
  Picard.files cluster ≠ [] ->
  form_values w = [] ->
  (mbserver_url submit_path w).1 = Ok url ->
  let fp := "/tmp/tmp" +:+ Py.str (Z.of_nat (List.length (tempfiles w))) +:+ ".html" in
  let w1 := (set_form_values cluster w).2 in
  callback [Picard.OCluster cluster] w =
    (Ok tt,
     with_form_values []
       (with_browser (browser w ++ ["file://" +:+ fp])
          (with_tempfiles
             (tempfiles w ++
              [(fp, HTML_HEAD NAME url +:+
                    html_inputs
                      (release_items cluster ++
                       setitems [] (track_writes cluster 0 (Picard.files cluster)
                                                 (discnumber_shift w))) +:+
                    HTML_TAIL NAME)])
             w1))) /\
  discnumber_shift w1
    = discnumber_shift
        (extract_discnumbers (Picard.file_metadata <$> Picard.files cluster) w).2 /\
  log w1 = log (extract_discnumbers (Picard.file_metadata <$> Picard.files cluster) w).2.
Proof.
  intros Hfiles Hw Hurl. cbv zeta.
  pose proof (set_form_values_from_empty cluster w Hw) as Hfv.
  assert (Hok : set_form_values cluster w = (Ok tt, (set_form_values cluster w).2))
    by (by rewrite set_form_values_world).
  assert (Hcfg : config (set_form_values cluster w).2 = config w)
    by (by rewrite set_form_values_world).
  assert (Htmp : tempfiles (set_form_values cluster w).2 = tempfiles w)
    by (by rewrite set_form_values_world).
  assert (Hbr : browser (set_form_values cluster w).2 = browser w)
    by (by rewrite set_form_values_world).
  split; [|split].
  - rewrite callback_inherited.
    rewrite (callback_run_success AddClusterAsRelease_class (Picard.OCluster cluster) w
               (set_form_values cluster w).2 url eq_refl); cycle 1.
    + cbn. by destruct (Picard.files cluster).
    + apply Hok.
    + rewrite <- Hurl. by apply mbserver_url_config.
    + cbv zeta. rewrite Hfv, Htmp, Hbr. reflexivity.
  - rewrite set_form_values_world, extract_discnumbers_run. reflexivity.
  - rewrite set_form_values_world, extract_discnumbers_run. reflexivity.
Qed.

Lemma callback_cluster_witness :
  exists page,
    callback [Picard.OCluster example_cluster] (new_AddClusterAsRelease example_config) =
    (Ok tt,
     with_browser ["file:///tmp/tmp0.html"]
       (with_tempfiles [("/tmp/tmp0.html", page)]
          (with_discnumber_shift 1 (new_AddClusterAsRelease example_config)))).
Proof.
  eexists.
  exact (proj1 (callback_cluster example_cluster (new_AddClusterAsRelease example_config)
                  "https://musicbrainz.org/release/add" ltac:(discriminate) eq_refl eq_refl)).
Defined.

(** What a call on a cluster with files leaves behind, from any state. *)
Lemma callback_on_cluster_fields (cluster : Picard.Cluster) (w : World) :
  Picard.files cluster ≠ [] ->
  let w' := (callback [Picard.OCluster cluster] w).2 in
  form_values w' = [] /\
  discnumber_shift w'
    = fold_left shift_after (Picard.file_metadata <$> Picard.files cluster) (discnumber_shift w) /\
  config w' = config w /\
  exists url,
    (mbserver_url submit_path w).1 = Ok url /\
    tempfiles w' =
      tempfiles w ++
      [("/tmp/tmp" +:+ Py.str (Z.of_nat (List.length (tempfiles w))) +:+ ".html",
        html_page NAME url (setitems (form_values w) (form_writes cluster (discnumber_shift w))))].
Proof.
  intros Hfiles. cbv zeta.
  destruct (mbserver_url_run submit_path w) as [_ [url Hurl]].
  rewrite callback_inherited.
  rewrite (callback_run_success AddClusterAsRelease_class (Picard.OCluster cluster) w
             (set_form_values cluster w).2 url eq_refl); cycle 1.
  - cbn. by destruct (Picard.files cluster).
  - cbn. by rewrite set_form_values_world.
  - rewrite <- Hurl. apply mbserver_url_config. by rewrite set_form_values_world.
  - cbv zeta. rewrite set_form_values_world. world_fields.
    split; [done|]. split; [done|]. split; [done|].
    exists url. by split.
Qed.

(** X18: a cluster with files gives the same page from the second call of
    [callback] on: the first call may move the shift, a second call on the
    same cluster leaves it where the first put it, and the pages written
    by the second and by the third call are the same. *)
Theorem callback_settles (cluster : Picard.Cluster) (w : World) :
  Picard.files cluster ≠ [] ->
  let w1 := (callback [Picard.OCluster cluster] w).2 in
  let w2 := (callback [Picard.OCluster cluster] w1).2 in
  let w3 := (callback [Picard.OCluster cluster] w2).2 in
  discnumber_shift w2 = discnumber_shift w1 /\
  discnumber_shift w3 = discnumber_shift w1 /\
  exists page,
    last (tempfiles w2).*2 = Some page /\ last (tempfiles w3).*2 = Some page.
Proof.
  intros Hfiles. cbv zeta.
  destruct (callback_on_cluster_fields cluster w Hfiles) as (Hfv1 & Hs1 & Hc1 & _).
  set (w1 := (callback [Picard.OCluster cluster] w).2) in *.
  destruct (callback_on_cluster_fields cluster w1 Hfiles) as (Hfv2 & Hs2 & Hc2 & url & Hurl & Ht2).
  set (w2 := (callback [Picard.OCluster cluster] w1).2) in *.
  destruct (callback_on_cluster_fields cluster w2 Hfiles) as (_ & Hs3 & _ & url' & Hurl' & Ht3).
  set (w3 := (callback [Picard.OCluster cluster] w2).2) in *.
  assert (Hs21 : discnumber_shift w2 = discnumber_shift w1).
  { rewrite Hs2, Hs1. apply fold_shift_after_stable. }
  assert (url' = url) as ->.
  { rewrite (mbserver_url_config _ w2 w1 Hc2) in Hurl'. congruence. }
  split; [done|]. split.
  { rewrite Hs3, Hs21, Hs1. apply fold_shift_after_stable. }
  exists (html_page NAME url (setitems [] (form_writes cluster (discnumber_shift w1)))).
  rewrite Ht3, Ht2, Hfv1, Hfv2, Hs21, !fmap_app. cbn [fmap list_fmap snd].
  by rewrite !last_snoc.
Qed.

Lemma callback_settles_witness :
  let w1 := (callback [Picard.OCluster example_cluster]
                      (new_AddClusterAsRelease example_config)).2 in
  let w2 := (callback [Picard.OCluster example_cluster] w1).2 in
  let w3 := (callback [Picard.OCluster example_cluster] w2).2 in
  discnumber_shift w2 = discnumber_shift w1 /\
  discnumber_shift w3 = discnumber_shift w1 /\
  exists page,
    last (tempfiles w2).*2 = Some page /\ last (tempfiles w3).*2 = Some page.
Proof.
  apply (callback_settles example_cluster (new_AddClusterAsRelease example_config)).
  discriminate.
Defined.

Lemma callback_success_witness :
  let file := {| Picard.file_metadata :=
                   tagged [("title", "One"); ("artist", "A"); ("~length", "3:05")] 185000 |} in
  AddObjectAsEntity.callback AddFileAsRecording_class [Picard.OFile file]
                             (new_AddClusterAsRelease example_config) =
  (Ok tt,
   with_browser ["file:///tmp/tmp0.html"]
     (with_tempfiles
        [("/tmp/tmp0.html",
          HTML_HEAD AddFileAsRecording.NAME "https://musicbrainz.org/recording/create" +:+
          html_inputs [("edit-recording.name", "One");
                       ("edit-recording.artist_credit.names.0.artist.name", "A");
                       ("edit-recording.length", "3:05")] +:+
          HTML_TAIL AddFileAsRecording.NAME)]
        (new_AddClusterAsRelease example_config))).
Proof.
  cbv zeta.
  exact (callback_success AddFileAsRecording_class
           (Picard.OFile {| Picard.file_metadata :=
                              tagged [("title", "One"); ("artist", "A"); ("~length", "3:05")]
                                     185000 |})
           (new_AddClusterAsRelease example_config)
           (with_form_values
              [("edit-recording.name", "One");
               ("edit-recording.artist_credit.names.0.artist.name", "A");
               ("edit-recording.length", "3:05")]
              (new_AddClusterAsRelease example_config))
           "https://musicbrainz.org/recording/create"
           eq_refl eq_refl eq_refl eq_refl).
Defined.

(** X19: the file-as-release action, end to end.  Called on a selection of
    one file, on an object with empty form values, [callback] writes and
    opens one page with five hidden inputs, in this order: the release
    artist (the album artist, or the artist when the album artist is
    empty), the release name (the album, or the title when the album is
    empty), and for medium 0, track 0 the title, the artist and the length
    in milliseconds.  It leaves the form values empty and changes nothing
    else. *)
Theorem callback_file_as_release (file : Picard.File) (w : World) (url : string) :
  form_values w = [] ->
  (mbserver_url "/release/add" w).1 = Ok url ->
  let metadata := Picard.file_metadata file in
  let fp := "/tmp/tmp" +:+ Py.str (Z.of_nat (List.length (tempfiles w))) +:+ ".html" in
  AddObjectAsEntity.callback AddFileAsRelease_class [Picard.OFile file] w =
  (Ok tt,
   with_form_values []
     (with_browser (browser w ++ ["file://" +:+ fp])
        (with_tempfiles
           (tempfiles w ++
            [(fp,
              HTML_HEAD "Add File As Release..." url +:+
              html_inputs
                [("artist_credit.names.0.artist.name",
                  if str_truth (Picard.getitem metadata "albumartist")
                  then Picard.getitem metadata "albumartist"
                  else Picard.getitem metadata "artist");
                 ("name",
                  if str_truth (Picard.getitem metadata "album")
                  then Picard.getitem metadata "album"
                  else Picard.getitem metadata "title");
                 ("mediums.0.track.0.name", Picard.getitem metadata "title");
                 ("mediums.0.track.0.artist_credit.names.0.name",
                  Picard.getitem metadata "artist");
                 ("mediums.0.track.0.length", Py.str (Picard.length metadata))] +:+
              HTML_TAIL "Add File As Release...")])
           w))).
Proof.
  intros Hw Hurl. cbv zeta.
  rewrite (callback_run_success AddFileAsRelease_class (Picard.OFile file) w
             _ url eq_refl eq_refl (AddFileAsRelease_run file w));
    [|by rewrite <- Hurl; apply mbserver_url_config].
  cbv zeta. world_fields. rewrite Hw. reflexivity.
Qed.

Lemma callback_file_as_release_witness :
  exists page,
    AddObjectAsEntity.callback AddFileAsRelease_class
      [Picard.OFile {| Picard.file_metadata :=
                         tagged [("title", "One"); ("artist", "A")] 185000 |}]
      (new_AddClusterAsRelease example_config) =
    (Ok tt,
     with_browser ["file:///tmp/tmp0.html"]
       (with_tempfiles [("/tmp/tmp0.html", page)] (new_AddClusterAsRelease example_config))).
Proof.
  eexists.
  exact (callback_file_as_release
           {| Picard.file_metadata := tagged [("title", "One"); ("artist", "A")] 185000 |}
           (new_AddClusterAsRelease example_config)
           "https://musicbrainz.org/release/add" eq_refl eq_refl).
Defined.

(** X20: the file-as-recording action, end to end.  Called on a selection
    of one file, on an object with empty form values, [callback] writes and
    opens one page with three hidden inputs, in this order: the title, the
    artist and the text of the [~length] tag.  It leaves the form values
    empty and changes nothing else. *)
Theorem callback_file_as_recording (file : Picard.File) (w : World) (url : string) :
  form_values w = [] ->
  (mbserver_url "/recording/create" w).1 = Ok url ->
  let metadata := Picard.file_metadata file in
  let fp := "/tmp/tmp" +:+ Py.str (Z.of_nat (List.length (tempfiles w))) +:+ ".html" in
  AddObjectAsEntity.callback AddFileAsRecording_class [Picard.OFile file] w =
  (Ok tt,
   with_form_values []
     (with_browser (browser w ++ ["file://" +:+ fp])
        (with_tempfiles
           (tempfiles w ++
            [(fp,
              HTML_HEAD "Add File As Standalone Recording..." url +:+
              html_inputs
                [("edit-recording.name", Picard.getitem metadata "title");
                 ("edit-recording.artist_credit.names.0.artist.name",
                  Picard.getitem metadata "artist");
                 ("edit-recording.length", Picard.getitem metadata "~length")] +:+
              HTML_TAIL "Add File As Standalone Recording...")])
           w))).
Proof.
  intros Hw Hurl. cbv zeta.
  rewrite (callback_run_success AddFileAsRecording_class (Picard.OFile file) w
             _ url eq_refl eq_refl (AddFileAsRecording_run file w));
    [|by rewrite <- Hurl; apply mbserver_url_config].
  cbv zeta. world_fields. rewrite Hw. reflexivity.
Qed.

Lemma callback_file_as_recording_witness :
  exists page,
    AddObjectAsEntity.callback AddFileAsRecording_class
      [Picard.OFile {| Picard.file_metadata :=
                         tagged [("title", "One"); ("artist", "A")] 185000 |}]
      (new_AddClusterAsRelease example_config) =
    (Ok tt,
     with_browser ["file:///tmp/tmp0.html"]
       (with_tempfiles [("/tmp/tmp0.html", page)] (new_AddClusterAsRelease example_config))).
Proof.
  eexists.
  exact (callback_file_as_recording
           {| Picard.file_metadata := tagged [("title", "One"); ("artist", "A")] 185000 |}
           (new_AddClusterAsRelease example_config)
           "https://musicbrainz.org/recording/create" eq_refl eq_refl).
Defined.

(** X21: for a file with an album artist and an album, whose artist
    differs from the album artist and which [extract_discnumber] and the
    track-number lookup place on medium 0, track 0, the file-as-release
    action stores the same form values as the cluster action does for the
    cluster that holds just this file and carries its album tags. *)
Theorem file_as_release_agrees (file : Picard.File) (w : World) :
  let metadata := Picard.file_metadata file in
  str_truth (Picard.getitem metadata "albumartist") = true ->
  str_truth (Picard.getitem metadata "album") = true ->
  Picard.getitem metadata "artist" ≠ Picard.getitem metadata "albumartist" ->
  (extract_discnumber metadata w).1 = Ok 0 ->
  (track_index 0 file w).1 = Ok 0 ->
  form_values (AddFileAsRelease.set_form_values (Picard.OFile file) w).2
  = form_values (set_form_values {| Picard.metadata := metadata;
                                    Picard.files := [file] |} w).2.
Proof.
  cbv zeta. intros Haa Hal Hne Hm Hi.
  pose proof (AddFileAsRelease_run file w) as Hrun. cbv zeta in Hrun.
  rewrite Hrun, Haa, Hal. rewrite set_form_values_world. world_fields.
  destruct (extract_discnumber_medium (Picard.file_metadata file) w) as [Hmed _].
  rewrite Hmed in Hm. cbn in Hm. injection Hm as Hm.
  rewrite track_index_run in Hi. cbn in Hi. injection Hi as Hi.
  unfold form_writes, release_items. cbn [Picard.files Picard.metadata track_writes].
  unfold track_number. rewrite Hm, Hi. unfold track_items.
  cbn [Picard.metadata]. rewrite bool_decide_true by done. reflexivity.
Qed.

Lemma file_as_release_agrees_witness :
  let file := {| Picard.file_metadata :=
                   tagged [("title", "One"); ("artist", "A"); ("albumartist", "VA");
                           ("album", "Alb"); ("tracknumber", "1")] 185000 |} in
  let w := new_AddClusterAsRelease example_config in
  form_values (AddFileAsRelease.set_form_values (Picard.OFile file) w).2
  = form_values (set_form_values {| Picard.metadata := Picard.file_metadata file;
                                    Picard.files := [file] |} w).2.
Proof.
  cbv zeta.
  apply (file_as_release_agrees
           {| Picard.file_metadata :=
                tagged [("title", "One"); ("artist", "A"); ("albumartist", "VA");
                        ("album", "Alb"); ("tracknumber", "1")] 185000 |}
           (new_AddClusterAsRelease example_config)).
  - reflexivity.
  - reflexivity.
  - discriminate.
  - reflexivity.
  - reflexivity.
Defined.

(** *** More on escaping and on the address *)

Lemma esc_length (s : string) : (String.length s <= String.length (esc s))%nat.
Proof.
  induction s as [|c s IH]; [done|]. rewrite esc_cons.
  destruct (Ascii.eqb c "&"); [|destruct (Ascii.eqb c "034")];
    rewrite ?length_append; cbn; lia.
Qed.

(** X22: [esc] returns a text unchanged exactly when the text holds
    neither an ampersand nor a double quote. *)
Theorem esc_plain (s : string) :
  esc s = s <->
  ("&"%char ∉ list_ascii_of_string s) /\ ("034"%char ∉ list_ascii_of_string s).
Proof.
  induction s as [|c s IH].
  - split; [intros _; split; apply not_elem_of_nil|done].
  - rewrite esc_cons. cbn [list_ascii_of_string]. rewrite !not_elem_of_cons.
    destruct (Ascii.eqb_spec c "&") as [->|Hamp].
    { split; [|by intros [[? _] _]].
      intros H. apply (f_equal String.length) in H. rewrite length_append in H.
      pose proof (esc_length s). cbn in H. lia. }
    destruct (Ascii.eqb_spec c "034") as [->|Hq].
    { split; [|by intros [_ [? _]]]. lazy [String.append]. by intros [= ?]. }
    split.
    + intros [= H]. apply IH in H as [? ?]. by repeat split; try congruence.
    + intros [[_ ?] [_ ?]]. f_equal. by apply IH.
Qed.

(** X23: [mbserver_url] changes nothing and gives one of three addresses.
    For a host among the MusicBrainz servers, or with port 443, it is
    [https://host] followed by the path, whatever the port is, and the
    port is never written.  Otherwise it is [http://host] followed by the
    path when no port is set or the port is 80, and [http://host:port]
    followed by the path for any other port. *)
Theorem mbserver_url_forms (path : string) (w : World) :
  let host := Picard.server_host (config w) in
  let port := Picard.server_port (config w) in
  let servers := Picard.MUSICBRAINZ_SERVERS (config w) in
  (mbserver_url path w).2 = w /\
  (host ∈ servers \/ port = Some 443 ->
   (mbserver_url path w).1 = Ok ("https://" +:+ host +:+ path)) /\
  (host ∉ servers -> port = None \/ port = Some 80 ->
   (mbserver_url path w).1 = Ok ("http://" +:+ host +:+ path)) /\
  (forall p, host ∉ servers -> port = Some p -> p ≠ 443 -> p ≠ 80 ->
   (mbserver_url path w).1 = Ok ("http://" +:+ host +:+ ":" +:+ Py.str p +:+ path)).
Proof.
  cbv zeta. split; [|split; [|split]].
  - destruct (mbserver_url_run path w) as [Hrun _]. by rewrite Hrun.
  - intros Hs. unfold mbserver_url. rewrite bind_run. cbn [get_config].
    destruct Hs as [Hin| ->].
    + by rewrite (bool_decide_true _ Hin).
    + rewrite (bool_decide_true (Some 443 = Some 443)) by done. by rewrite orb_true_r.
  - intros Hnin Hp. unfold mbserver_url. rewrite bind_run. cbn [get_config].
    rewrite (bool_decide_false _ Hnin).
    destruct Hp as [->| ->]; [by rewrite bool_decide_false|].
    by rewrite bool_decide_false.
  - intros p Hnin Hp H443 H80. unfold mbserver_url. rewrite bind_run. cbn [get_config].
    rewrite (bool_decide_false _ Hnin), Hp.
    rewrite bool_decide_false by congruence. cbn [orb].
    by destruct (Z.eqb_spec p 80).
Qed.

Lemma mbserver_url_forms_witness :
  (mbserver_url "/release/add"
     (new_AddClusterAsRelease {| Picard.server_host := "musicbrainz.org";
                                 Picard.server_port := Some 8080;
                                 Picard.MUSICBRAINZ_SERVERS := ["musicbrainz.org"] |})).1
    = Ok "https://musicbrainz.org/release/add"%string /\
  (mbserver_url "/release/add"
     (new_AddClusterAsRelease {| Picard.server_host := "localhost";
                                 Picard.server_port := Some 80;
                                 Picard.MUSICBRAINZ_SERVERS := ["musicbrainz.org"] |})).1
    = Ok "http://localhost/release/add"%string /\
  (mbserver_url "/release/add"
     (new_AddClusterAsRelease {| Picard.server_host := "localhost";
                                 Picard.server_port := Some 5000;
                                 Picard.MUSICBRAINZ_SERVERS := ["musicbrainz.org"] |})).1
    = Ok "http://localhost:5000/release/add"%string.
Proof.
  split; [|split].
  - apply (proj1 (proj2 (mbserver_url_forms "/release/add"
             (new_AddClusterAsRelease {| Picard.server_host := "musicbrainz.org";
                                         Picard.server_port := Some 8080;
                                         Picard.MUSICBRAINZ_SERVERS := ["musicbrainz.org"] |})))).
    left. apply list_elem_of_here.
  - apply (proj1 (proj2 (proj2 (mbserver_url_forms "/release/add"
             (new_AddClusterAsRelease {| Picard.server_host := "localhost";
                                         Picard.server_port := Some 80;
                                         Picard.MUSICBRAINZ_SERVERS := ["musicbrainz.org"] |}))))).
    + by intros [=]%list_elem_of_singleton.
    + by right.
  - apply (proj2 (proj2 (proj2 (mbserver_url_forms "/release/add"
             (new_AddClusterAsRelease {| Picard.server_host := "localhost";
                                         Picard.server_port := Some 5000;
                                         Picard.MUSICBRAINZ_SERVERS := ["musicbrainz.org"] |}))))
             5000).
    + by intros [=]%list_elem_of_singleton.
    + reflexivity.
    + lia.
    + lia.
Defined.

Lemma discnumber_shift_final_witness :
  2 <= discnumber_shift
         (extract_discnumbers [tagged [("discnumber", "1")] 0;
                                    tagged [("discnumber", "-2/3")] 0]
                                   (new_AddClusterAsRelease example_config)).2.
Proof.
  apply (proj1 (proj2 (discnumber_shift_final
           [tagged [("discnumber", "1")] 0; tagged [("discnumber", "-2/3")] 0]
           (new_AddClusterAsRelease example_config)))
           (tagged [("discnumber", "-2/3")] 0) (-2)).
  - apply list_elem_of_further, list_elem_of_here.
  - reflexivity.
  - lia.
Defined.

(** *** Disc numbers written as decimal numbers *)

Lemma lstrip_id (l : list ascii) :
  match l with [] => True | c :: _ => Py.isspace c = false end -> Py.lstrip l = l.
Proof. destruct l as [|c l]; [done|]. cbn. by intros ->. Qed.

Lemma strip_id (l : list ascii) :
  Forall (fun c => Py.isspace c = false) l -> Py.strip l = l.
Proof.
  intros Hl. unfold Py.strip, Py.rstrip.
  rewrite (lstrip_id l) by (by destruct Hl).
  rewrite lstrip_id; [apply rev_involutive|].
  apply Forall_rev in Hl. by destruct Hl.
Qed.

Lemma string_of_uint_no_space (d : Decimal.uint) :
  Forall (fun c => Py.isspace c = false)
         (list_ascii_of_string (NilEmpty.string_of_uint d)).
Proof. induction d; cbn [NilEmpty.string_of_uint list_ascii_of_string]; by constructor. Qed.

Lemma string_of_uint_no_slash (d : Decimal.uint) :
  Py.split1_head "/" (NilEmpty.string_of_uint d) = NilEmpty.string_of_uint d.
Proof. induction d; simpl; by rewrite ?IHd. Qed.

Lemma digits_from_acc (d : Decimal.uint) (acc : positive) :
  Py.digits_from (Z.pos acc) false (list_ascii_of_string (NilEmpty.string_of_uint d))
  = Some (Z.pos (Pos.of_uint_acc d acc)).
Proof.
  revert acc. induction d; intros acc;
    cbn [NilEmpty.string_of_uint list_ascii_of_string Py.digits_from Pos.of_uint_acc];
    [done|..];
    (change (Py.isdigit _) with true; cbn iota;
     match goal with
     | |- Py.digits_from ?a _ _ = Some (Z.pos (Pos.of_uint_acc _ ?p)) =>
         replace a with (Z.pos p) by (unfold Py.digit_value; cbn; lia)
     end; apply IHd).
Qed.

Lemma digits_from_zero (d : Decimal.uint) :
  Py.digits_from 0 false (list_ascii_of_string (NilEmpty.string_of_uint d))
  = Some (Z.of_uint d).
Proof.
  unfold Z.of_uint.
  induction d;
    cbn [NilEmpty.string_of_uint list_ascii_of_string Py.digits_from Pos.of_uint];
    [done|..];
    change (Py.isdigit _) with true; cbn iota;
    first [ exact IHd
          | match goal with
            | |- Py.digits_from ?a _ _ = Some (Z.of_N (N.pos (Pos.of_uint_acc _ ?p))) =>
                change a with (Z.pos p)
            end; apply digits_from_acc ].
Qed.

Lemma digits_of_uint (d : Decimal.uint) :
  d ≠ Decimal.Nil ->
  Py.digits (list_ascii_of_string (NilEmpty.string_of_uint d)) = Some (Z.of_uint d).
Proof.
  intros Hd. unfold Z.of_uint.
  destruct d; [done|..];
    cbn [NilEmpty.string_of_uint list_ascii_of_string Py.digits Pos.of_uint];
    change (Py.isdigit _) with true; cbn iota;
    first [ apply digits_from_zero
          | match goal with
            | |- Py.digits_from ?a _ _ = Some (Z.of_N (N.pos (Pos.of_uint_acc _ ?p))) =>
                change a with (Z.pos p)
            end; apply digits_from_acc ].
Qed.

(** [int] reads back what [str] wrote. *)
Lemma int_str (z : Z) : Py.int (Py.str z) = Some z.
Proof.
  unfold Py.int, Py.str. destruct z as [|p|p]; [reflexivity|..]; cbn [Z.to_int NilZero.string_of_int].
  - pose proof (DecimalPos.Unsigned.to_uint_nonnil p) as Hnn.
    pose proof (DecimalPos.Unsigned.of_to p) as Hof.
    unfold NilZero.string_of_uint.
    destruct (Pos.to_uint p) as [|d|d|d|d|d|d|d|d|d|d] eqn:Hp; [done|..];
      (rewrite strip_id by apply string_of_uint_no_space);
      (etrans; [|etrans; [apply (digits_of_uint _ Hnn)|
                          unfold Z.of_uint; by rewrite Hof]]); reflexivity.
  - pose proof (DecimalPos.Unsigned.to_uint_nonnil p) as Hnn.
    pose proof (DecimalPos.Unsigned.of_to p) as Hof.
    unfold NilZero.string_of_uint.
    assert (Hs : NilEmpty.string_of_uint (Pos.to_uint p)
                 = match Pos.to_uint p with
                   | Decimal.Nil => "0"%string
                   | _ => NilEmpty.string_of_uint (Pos.to_uint p)
                   end) by (by destruct (Pos.to_uint p)).
    rewrite <- Hs. cbn [list_ascii_of_string].
    rewrite strip_id by (constructor; [done|apply string_of_uint_no_space]).
    rewrite (digits_of_uint _ Hnn). unfold Z.of_uint. by rewrite Hof.
Qed.

Lemma str_no_slash (z : Z) : Py.split1_head "/" (Py.str z) = Py.str z.
Proof.
  unfold Py.str, NilZero.string_of_int, NilZero.string_of_uint.
  destruct (Z.to_int z) as [d|d]; destruct d; simpl; try done;
    by rewrite string_of_uint_no_slash.
Qed.

Lemma append_nil_r (a : string) : a +:+ EmptyString = a.
Proof.
  induction a as [|x a IH]; [done|].
  change (String x (a +:+ EmptyString) = String x a). by rewrite IH.
Qed.

Lemma discnumber_text_decimal (metadata : Picard.Metadata) (n : Z) (total : option string) :
  Picard.tags metadata !! "discnumber"
    = Some (Py.str n +:+ match total with
                         | Some t => String "/" t
                         | None => EmptyString
                         end) ->
  Py.int (discnumber_text metadata) = Some n.
Proof.
  intros Htag. unfold discnumber_text, Picard.get. rewrite Htag.
  destruct total as [t|].
  - by rewrite split1_head_app, str_no_slash, int_str.
  - by rewrite append_nil_r, str_no_slash, int_str.
Qed.

(** X24: on an object whose shift is still -1, a disc number tag that is
    the decimal text of an integer [n], alone or followed by a slash and
    anything, gives the medium number [max (n - 1) 0] and leaves the shift
    at [max (-1) (-n)]. *)
Theorem extract_discnumber_decimal
    (metadata : Picard.Metadata) (w : World) (n : Z) (total : option string) :
  discnumber_shift w = -1 ->
  Picard.tags metadata !! "discnumber"
    = Some (Py.str n +:+ match total with
                         | Some t => String "/" t
                         | None => EmptyString
                         end) ->
  (extract_discnumber metadata w).1 = Ok (Z.max (n - 1) 0) /\
  discnumber_shift (extract_discnumber metadata w).2 = Z.max (-1) (- n).
Proof.
  intros Hw Htag. apply discnumber_text_decimal in Htag. split.
  - destruct (extract_discnumber_medium metadata w) as [-> _]. cbn [fst].
    rewrite medium_number_invariant, Htag, Hw by lia. f_equal; lia.
  - by rewrite extract_discnumber_shift, shift_after_invariant, Htag, Hw by lia.
Qed.

Lemma extract_discnumber_decimal_witness :
  (extract_discnumber (tagged [("discnumber", "3/4")] 0)
                      (new_AddClusterAsRelease example_config)).1 = Ok 2 /\
  discnumber_shift (extract_discnumber (tagged [("discnumber", "3/4")] 0)
                                       (new_AddClusterAsRelease example_config)).2 = -1.
Proof.
  exact (extract_discnumber_decimal (tagged [("discnumber", "3/4")] 0)
           (new_AddClusterAsRelease example_config) 3 (Some "4"%string) eq_refl eq_refl).
Defined.

(** X25: a track number tag that is the decimal text of an integer [n]
    puts the fields of the file under track index [n - 1], whatever [n]
    is: track numbers at most 0 give negative indices, they are not
    shifted as disc numbers are. *)
Theorem track_index_decimal
    (cluster : Picard.Cluster) (i : nat) (file : Picard.File) (w : World) (n : Z) :
  Picard.tags (Picard.file_metadata file) !! "tracknumber" = Some (Py.str n) ->
  (track_index i file w).1 = Ok (n - 1) /\
  exists m,
    (extract_discnumber (Picard.file_metadata file) w).1 = Ok m /\
    Py.get (form_values (set_track_values cluster i file w).2)
           ("mediums." +:+ Py.str m +:+ ".track." +:+ Py.str (n - 1) +:+ ".name")
    = Some (Picard.getitem (Picard.file_metadata file) "title").
Proof.
  intros Htag.
  assert (Hn : track_number i file = n - 1).
  { unfold track_number, Picard.getitem, Picard.get. by rewrite Htag, int_str. }
  split; [by rewrite track_index_run; fold (track_number i file); rewrite Hn|].
  destruct (extract_discnumber_medium (Picard.file_metadata file) w) as [Hm _].
  eexists. split; [by rewrite Hm|].
  rewrite set_track_values_run. world_fields. rewrite Hn, get_setitems.
  set (m := medium_number _ _).
  change ("mediums." +:+ Py.str m +:+ ".track." +:+ Py.str (n - 1) +:+ ".name")
    with (track_field m (n - 1) "name").
  assert (Hna : track_field m (n - 1) "artist_credit.names.0.name" ≠ track_field m (n - 1) "name")
    by (by intros ?%track_field_inj_name).
  assert (Hnl : track_field m (n - 1) "length" ≠ track_field m (n - 1) "name")
    by (by intros ?%track_field_inj_name).
  unfold track_items. case_bool_decide; cbn.
  - destruct (String.eqb_spec (track_field m (n - 1) "length") (track_field m (n - 1) "name"));
      [congruence|].
    destruct (String.eqb_spec (track_field m (n - 1) "artist_credit.names.0.name")
                              (track_field m (n - 1) "name")); [congruence|].
    by rewrite String.eqb_refl.
  - destruct (String.eqb_spec (track_field m (n - 1) "length") (track_field m (n - 1) "name"));
      [congruence|].
    by rewrite String.eqb_refl.
Qed.

Lemma track_index_decimal_witness :
  let file := {| Picard.file_metadata := tagged [("tracknumber", "0"); ("title", "Intro")] 0 |} in
  (track_index 5 file (new_AddClusterAsRelease example_config)).1 = Ok (-1) /\
  exists m,
    (extract_discnumber (Picard.file_metadata file) (new_AddClusterAsRelease example_config)).1
      = Ok m /\
    Py.get (form_values (set_track_values example_cluster 5 file
                                          (new_AddClusterAsRelease example_config)).2)
           ("mediums." +:+ Py.str m +:+ ".track." +:+ Py.str (-1) +:+ ".name")
    = Some (Picard.getitem (Picard.file_metadata file) "title").
Proof.
  cbv zeta.
  exact (track_index_decimal example_cluster 5
           {| Picard.file_metadata := tagged [("tracknumber", "0"); ("title", "Intro")] 0 |}
           (new_AddClusterAsRelease example_config) 0 eq_refl).
Defined.

(** *** The artist credit of a track in the form values *)

Lemma track_field_cancel (m i m' i' : Z) (n n' : string) :
  track_field m i n = track_field m' i' n' -> m = m' /\ i = i' /\ n = n'.
Proof.
  unfold track_field. intros H. apply append_inj_r in H.
  change (".track." +:+ ?x) with (String "." ("track." +:+ x)) in H.
  apply cut_at_dot in H as [-> H]. apply append_inj_r in H.
  change ("." +:+ ?x) with (String "." x) in H.
  by apply cut_at_dot in H as [-> ->].
Qed.

Lemma first_occurrences_elem_iff (l : list string) (k : string) :
  k ∈ first_occurrences l <-> k ∈ l.
Proof.
  split; [apply first_occurrences_elem|].
  induction l as [|k0 l IH]; [done|]. cbn.
  rewrite !elem_of_cons, list_elem_of_filter. intros [->|Hin]; [by left|].
  destruct (decide (k = k0)) as [->|Hne]; [by left|]. right. split; [done|]. by apply IH.
Qed.

Lemma last_write_elem (l : list (string * string)) (k v : string) :
  last_write l k = Some v -> (k, v) ∈ l.
Proof.
  induction l as [|[k' v'] l IH]; cbn; [done|].
  destruct (last_write l k) as [v0|].
  - intros [= ->]. apply list_elem_of_further. by apply IH.
  - destruct (String.eqb_spec k' k) as [->|]; [|done].
    intros [= ->]. apply list_elem_of_here.
Qed.

Lemma elem_of_keys (l : list (string * string)) (k : string) :
  k ∈ l.*1 <-> exists v, (k, v) ∈ l.
Proof.
  rewrite list_elem_of_fmap. split.
  - intros ([k' v] & -> & Hin). by exists v.
  - intros [v Hin]. by exists (k, v).
Qed.

(** The artist field of medium [m], track [i] is among the pairs of a
    round exactly when the round is for that medium and track and the
    artist of its file differs from the album artist. *)
Lemma track_items_artist (cluster : Picard.Cluster) (m i m' i' : Z) (file : Picard.File)
    (v : string) :
  (track_field m i "artist_credit.names.0.name", v) ∈ track_items cluster m' i' file <->
  m' = m /\ i' = i /\
  Picard.getitem (Picard.file_metadata file) "artist"
    ≠ Picard.getitem (Picard.metadata cluster) "albumartist" /\
  v = Picard.getitem (Picard.file_metadata file) "artist".
Proof.
  assert (Hpair : forall (k k' x x' : string), (k, x) = (k', x') -> k = k' /\ x = x')
    by (intros k k' x x' Hp; split; [exact (f_equal fst Hp)|exact (f_equal snd Hp)]).
  unfold track_items. rewrite !elem_of_app, !list_elem_of_singleton. split.
  - intros [H|[H|H]].
    + apply Hpair in H as [H _]. by apply track_field_cancel in H as (_ & _ & [=]).
    + case_bool_decide as Hd; [|by apply elem_of_nil in H].
      apply list_elem_of_singleton, Hpair in H as [H ->].
      by apply track_field_cancel in H as (-> & -> & _).
    + apply Hpair in H as [H _]. by apply track_field_cancel in H as (_ & _ & [=]).
  - intros (-> & -> & Hne & ->). right. left.
    rewrite bool_decide_true by done. apply list_elem_of_here.
Qed.

Lemma track_writes_artist (cluster : Picard.Cluster) (l : list Picard.File) (i0 : nat)
    (s m i : Z) (v : string) :
  (track_field m i "artist_credit.names.0.name", v) ∈ track_writes cluster i0 l s <->
  exists (j : nat) (file : Picard.File),
    l !! j = Some file /\
    medium_number (fold_left shift_after (Picard.file_metadata <$> take j l) s)
                  (Picard.file_metadata file) = m /\
    track_number (i0 + j) file = i /\
    Picard.getitem (Picard.file_metadata file) "artist"
      ≠ Picard.getitem (Picard.metadata cluster) "albumartist" /\
    v = Picard.getitem (Picard.file_metadata file) "artist".
Proof.
  revert i0 s. induction l as [|f l IH]; intros i0 s.
  - cbn. split; [by intros ?%elem_of_nil|]. by intros (j & file & Hj & _).
  - cbn [track_writes]. rewrite elem_of_app, track_items_artist, IH. split.
    + intros [(Hm & Hi & Hne & Hv)|(j & file & Hj & Hm & Hi & Hne & Hv)].
      * exists 0%nat, f. rewrite Nat.add_0_r. by split_and!.
      * exists (S j), file. cbn [take fmap list_fmap fold_left].
        replace (i0 + S j)%nat with (S i0 + j)%nat by lia. by split_and!.
    + intros ([|j] & file & Hj & Hm & Hi & Hne & Hv).
      * left. injection Hj as <-. rewrite Nat.add_0_r in Hi. by split_and!.
      * right. exists j, file. cbn [take fmap list_fmap fold_left] in Hm.
        replace (i0 + S j)%nat with (S i0 + j)%nat in Hi by lia. by split_and!.
Qed.

(** The state in which the round of the file at position [p] starts. *)
Lemma first_files_shift (cluster : Picard.Cluster) (p : nat) (w : World) :
  discnumber_shift (set_form_values (first_files p cluster) w).2
  = fold_left shift_after (Picard.file_metadata <$> take p (Picard.files cluster))
              (discnumber_shift w).
Proof. by rewrite set_form_values_world. Qed.

(** The artist field of medium [m], track [i] is among the pairs
    [set_form_values] stores exactly when a file of the cluster is placed on
    that medium and track and has an artist that differs from the album
    artist. *)
Lemma form_writes_artist (cluster : Picard.Cluster) (w : World) (m i : Z) (v : string) :
  (track_field m i "artist_credit.names.0.name", v)
    ∈ track_writes cluster 0 (Picard.files cluster) (discnumber_shift w) <->
  exists (p : nat) (file : Picard.File),
    Picard.files cluster !! p = Some file /\
    (extract_discnumber (Picard.file_metadata file)
                        (set_form_values (first_files p cluster) w).2).1 = Ok m /\
    (track_index p file (set_form_values (first_files p cluster) w).2).1 = Ok i /\
    Picard.getitem (Picard.file_metadata file) "artist"
      ≠ Picard.getitem (Picard.metadata cluster) "albumartist" /\
    v = Picard.getitem (Picard.file_metadata file) "artist".
Proof.
  rewrite track_writes_artist.
  assert (Hround : forall p file,
             (extract_discnumber (Picard.file_metadata file)
                                 (set_form_values (first_files p cluster) w).2).1 = Ok m /\
             (track_index p file (set_form_values (first_files p cluster) w).2).1 = Ok i <->
             medium_number
               (fold_left shift_after
                          (Picard.file_metadata <$> take p (Picard.files cluster))
                          (discnumber_shift w))
               (Picard.file_metadata file) = m /\
             track_number (0 + p) file = i).
  { intros p file.
    destruct (extract_discnumber_medium (Picard.file_metadata file)
                (set_form_values (first_files p cluster) w).2) as [-> _].
    rewrite track_index_run, first_files_shift. cbn [fst Nat.add].
    fold (track_number p file). split; [intros [[= ?] [= ?]]|intros [-> ->]]; by split. }
  split.
  - intros (j & file & Hj & Hm & Hi & Hne & Hv). exists j, file.
    destruct (Hround j file) as [_ Hr]. destruct (Hr (conj Hm Hi)). by split_and!.
  - intros (p & file & Hp & Hm & Hi & Hne & Hv). exists p, file.
    destruct (Hround p file) as [Hr _]. destruct (Hr (conj Hm Hi)). by split_and!.
Qed.

(** C7, as the claim words it, fails.  The first file has the artist B,
    the second the album artist A, and both carry track number 1 of disc
    1: the form values hold [mediums.0.track.0.artist_credit.names.0.name]
    with the value B although the artist of the second file equals the
    album artist, so the field is not absent for the second file. *)
Lemma artist_credit_field_counterexample :
  let first := {| Picard.file_metadata :=
                    tagged [("tracknumber", "1"); ("title", "Uno"); ("artist", "B")] 1 |} in
  let second := {| Picard.file_metadata :=
                     tagged [("tracknumber", "1"); ("title", "One"); ("artist", "A")] 2 |} in
  let cluster := {| Picard.metadata := tagged [("albumartist", "A"); ("album", "Alb")] 0;
                    Picard.files := [first; second] |} in
  let w := new_AddClusterAsRelease example_config in
  let d := form_values (set_form_values cluster w).2 in
  Picard.getitem (Picard.file_metadata second) "artist"
    = Picard.getitem (Picard.metadata cluster) "albumartist" /\
  (extract_discnumber (Picard.file_metadata second)
                      (set_form_values (first_files 1 cluster) w).2).1 = Ok 0 /\
  (track_index 1 second (set_form_values (first_files 1 cluster) w).2).1 = Ok 0 /\
  d = [("artist_credit.names.0.artist.name", "A"); ("name", "Alb");
       ("mediums.0.track.0.name", "One");
       ("mediums.0.track.0.artist_credit.names.0.name", "B");
       ("mediums.0.track.0.length", "2")] /\
  ~ ("mediums.0.track.0.artist_credit.names.0.name" ∈ Py.keys d <->
     Picard.getitem (Picard.file_metadata second) "artist"
       ≠ Picard.getitem (Picard.metadata cluster) "albumartist").
Proof.
  cbv zeta. split; [reflexivity|]. split; [reflexivity|]. split; [reflexivity|].
  split; [vm_compute; reflexivity|].
  intros [Hin _]. apply Hin; [|reflexivity].
  vm_compute. do 3 apply list_elem_of_further. apply list_elem_of_here.
Qed.

(** C7, amended.  The round of the loop for the file at position [p]
    stores [mediums.m.track.i.artist_credit.names.0.name], with the file's
    artist as value, when the artist differs from the album artist, and
    stores nothing under that key when the two are equal ([m] is what
    [extract_discnumber] returns in that round, [i] the round's track
    index).  In the form values built from an empty dictionary the key of
    medium [m], track [i] is therefore present exactly when some file of
    the cluster is placed on medium [m], track [i] and has an artist that
    differs from the album artist, and its value is the artist of such a
    file.  For a file whose artist equals the album artist the key is
    absent unless another file with the same medium number and track
    index has a different artist. *)
Theorem artist_credit_field (cluster : Picard.Cluster) (w : World) :
  let albumartist := Picard.getitem (Picard.metadata cluster) "albumartist" in
  let artist file := Picard.getitem (Picard.file_metadata file) "artist" in
  let before p := (set_form_values (first_files p cluster) w).2 in
  let key m i :=
    "mediums." +:+ Py.str m +:+ ".track." +:+ Py.str i +:+ ".artist_credit.names.0.name" in
  let placed p file m i :=
    Picard.files cluster !! p = Some file /\
    (extract_discnumber (Picard.file_metadata file) (before p)).1 = Ok m /\
    (track_index p file (before p)).1 = Ok i in
  let d := form_values (set_form_values cluster w).2 in
  (forall p file,
     Picard.files cluster !! p = Some file ->
     exists m i,
       placed p file m i /\
       set_form_values (first_files (S p) cluster) w
         = set_track_values cluster p file (before p) /\
       if bool_decide (artist file = albumartist)
       then Py.get (form_values (before (S p))) (key m i)
            = Py.get (form_values (before p)) (key m i)
       else Py.get (form_values (before (S p))) (key m i) = Some (artist file)) /\
  (form_values w = [] ->
   forall m i,
     (key m i ∈ Py.keys d <->
      exists p file, placed p file m i /\ artist file ≠ albumartist) /\
     (forall v, Py.get d (key m i) = Some v ->
                exists p file, placed p file m i /\ artist file ≠ albumartist /\
                               v = artist file) /\
     ((forall p file, placed p file m i -> artist file = albumartist) ->
      Py.get d (key m i) = None)).
Proof.
  cbv zeta. split.
  - intros p file Hp.
    assert (Hstep : set_form_values (first_files (S p) cluster) w
                    = set_track_values cluster p file
                        (set_form_values (first_files p cluster) w).2).
    { rewrite (set_form_values_first_files cluster p file w Hp), bind_run.
      by rewrite (set_form_values_world (first_files p cluster) w). }
    destruct (set_track_values_artist_credit cluster p file
                (set_form_values (first_files p cluster) w).2)
      as (Hm & Hi & _ & _ & _ & Hget). cbv zeta in Hget.
    eexists _, _. split; [split; [done|split; [exact Hm|exact Hi]]|].
    split; [done|]. rewrite Hstep. exact Hget.
  - intros Hw m i.
    change ("mediums." +:+ Py.str m +:+ ".track." +:+ Py.str i +:+
            ".artist_credit.names.0.name")
      with (track_field m i "artist_credit.names.0.name").
    rewrite (set_form_values_from_empty cluster w Hw).
    set (tracks := track_writes cluster 0 (Picard.files cluster) (discnumber_shift w)).
    destruct (track_field_not_release m i "artist_credit.names.0.name") as [Hr1 Hr2].
    assert (Hkeys : track_field m i "artist_credit.names.0.name"
                      ∈ Py.keys (release_items cluster ++ setitems [] tracks) <->
                    exists v, (track_field m i "artist_credit.names.0.name", v) ∈ tracks).
    { unfold Py.keys. rewrite fmap_app, elem_of_app.
      fold (Py.keys (setitems [] tracks)).
      rewrite keys_setitems_nil, first_occurrences_elem_iff, !elem_of_keys.
      split; [|intros ?; by right]. intros [[v Hrel]|Hin]; [|done].
      unfold release_items in Hrel. rewrite !elem_of_cons in Hrel.
      destruct Hrel as [Hrel|[Hrel|Hrel%elem_of_nil]]; [..|done];
        by apply (f_equal fst) in Hrel. }
    assert (Hget : forall v,
               Py.get (release_items cluster ++ setitems [] tracks)
                      (track_field m i "artist_credit.names.0.name") = Some v ->
               (track_field m i "artist_credit.names.0.name", v) ∈ tracks).
    { intros v. unfold release_items. cbn [app Py.get].
      destruct (String.eqb_spec "artist_credit.names.0.artist.name"
                                (track_field m i "artist_credit.names.0.name")) as [He|_];
        [by symmetry in He|].
      destruct (String.eqb_spec "name" (track_field m i "artist_credit.names.0.name"))
        as [He|_]; [by symmetry in He|].
      rewrite get_setitems. destruct (last_write tracks _) as [v'|] eqn:Hlw; [|done].
      intros [= ->]. by apply last_write_elem. }
    split; [|split].
    + rewrite Hkeys. split.
      * intros [v Hin]. apply form_writes_artist in Hin
          as (p & file & Hp & Hm & Hi & Hne & _). by exists p, file.
      * intros (p & file & (Hp & Hm & Hi) & Hne). eexists.
        apply form_writes_artist. exists p, file. by split_and!.
    + intros v Hv. apply Hget, form_writes_artist in Hv
        as (p & file & Hp & Hm & Hi & Hne & ->). by exists p, file.
    + intros Hall. apply eq_None_not_Some. intros [v Hv].
      apply Hget, form_writes_artist in Hv as (p & file & Hp & Hm & Hi & Hne & _).
      by destruct Hne; apply (Hall p file).
Qed.

Lemma artist_credit_field_witness :
  "mediums.0.track.1.artist_credit.names.0.name"
    ∈ Py.keys (form_values (set_form_values example_cluster
                                            (new_AddClusterAsRelease example_config)).2) /\
  Py.get (form_values (set_form_values example_cluster
                                       (new_AddClusterAsRelease example_config)).2)
         "mediums.0.track.0.artist_credit.names.0.name" = None.
Proof.
  pose proof (proj2 (artist_credit_field example_cluster
                       (new_AddClusterAsRelease example_config)) eq_refl) as H.
  cbv zeta in H. split.
  - apply (proj1 (H 0 1)).
    exists 1%nat,
      {| Picard.file_metadata :=
           tagged [("discnumber", "-1"); ("tracknumber", "x"); ("title", "Two");
                   ("artist", "B")] 2000 |}.
    split; [by split_and!|]. discriminate.
  - apply (proj2 (proj2 (H 0 0))).
    intros [|[|p]] file (Hp & Hm & Hi).
    + injection Hp as <-. reflexivity.
    + injection Hp as <-. vm_compute in Hi. discriminate Hi.
    + discriminate Hp.
Defined.
